(** * Coffee-shop reporting dashboard: the filter stage, the loader cache
      and the Top 25 view of [app.py].

    The dashboard is a Streamlit script over pandas.  The development
    below embeds the script's own code ([filter_dataframe],
    [get_data_from_excel], [show_tab4] and the main page) as monadic
    programs over a store of DataFrame objects, the widget trace and the
    [st.cache_data] cache.  What the script calls in pandas and Streamlit
    is modelled by what these libraries do; what is left to the user, to
    text parsing (dates, regular expressions), to the equality of Python
    objects that stand for a missing value, to the order in which an
    unstable sort leaves equal keys and to the rendering of an element is
    an oracle. *)

From Stdlib Require Import ZArith QArith List Permutation Lia.
From stdpp Require Import base option gmap strings list sorting.

Local Open Scope Z_scope.
Local Open Scope string_scope.
Local Open Scope list_scope.

(** ** Scalars, dtypes, Series and DataFrames *)

(** A cell.  Numbers are exact integers, time stamps are wall-clock
    nanoseconds, [SNull] is NaN / None / NaT. *)
Inductive scalar :=
| SNum (z : Z)
| SStr (s : string)
| SDate (t : Z)
| SNull.

#[global] Instance scalar_eq_dec : EqDecision scalar.
Proof. solve_decision. Defined.

(** The dtype of a column, as far as [pandas.api.types] tells them apart.
    A datetime column carries its time zone, if any. *)
Inductive dtype :=
| Object
| Category
| Numeric
| Datetime (tz : option string)
| OtherDtype.

#[global] Instance dtype_eq_dec : EqDecision dtype.
Proof. solve_decision. Defined.

Record Series := mkSeries { s_dtype : dtype; s_values : list scalar }.

(** A table: named typed columns and the rows in order, each row holding
    one cell per column. *)
Record DataFrame := mkDF {
  columns : list (string * dtype);
  rows : list (list scalar)
}.

#[global] Instance DataFrame_eq_dec : EqDecision DataFrame.
Proof. solve_decision. Defined.

Definition column_names (df : DataFrame) : list string := (columns df).*1.

(** Position of the first column called [c]. *)
Fixpoint column_index (c : string) (cols : list (string * dtype)) : option nat :=
  match cols with
  | [] => None
  | (c', _) :: cols' =>
      if decide (c' = c) then Some 0%nat else S <$> column_index c cols'
  end.

Definition cell (i : nat) (row : list scalar) : scalar := default SNull (row !! i).

(** [df[c]]: [None] stands for KeyError. *)
Definition df_getitem (df : DataFrame) (c : string) : option Series :=
  i ← column_index c (columns df);
  dt ← (columns df).*2 !! i;
  Some (mkSeries dt (cell i <$> rows df)).

(** Row-wise replacement of cell [i] by the values of a Series. *)
Fixpoint set_cells (i : nat) (rs : list (list scalar)) (vs : list scalar)
  : list (list scalar) :=
  match rs, vs with
  | r :: rs', v :: vs' => <[i := v]> r :: set_cells i rs' vs'
  | _, _ => []
  end.

Fixpoint append_cells (rs : list (list scalar)) (vs : list scalar)
  : list (list scalar) :=
  match rs, vs with
  | r :: rs', v :: vs' => (r ++ [v]) :: append_cells rs' vs'
  | _, _ => []
  end.

(** [df[c] = s] on a DataFrame value: an existing column is replaced in
    place, a new one is appended; [None] stands for the ValueError pandas
    raises when the lengths differ. *)
Definition df_setitem (df : DataFrame) (c : string) (s : Series) : option DataFrame :=
  if decide (length (s_values s) = length (rows df)) then
    match column_index c (columns df) with
    | Some i => Some (mkDF (<[i := (c, s_dtype s)]> (columns df))
                           (set_cells i (rows df) (s_values s)))
    | None => Some (mkDF (columns df ++ [(c, s_dtype s)])
                         (append_cells (rows df) (s_values s)))
    end
  else None.

(** The rows a mask keeps. *)
Fixpoint mask_rows {A} (mask : list bool) (rs : list A) : list A :=
  match mask, rs with
  | b :: mask', r :: rs' => if b then r :: mask_rows mask' rs' else mask_rows mask' rs'
  | _, _ => []
  end.

(** [df[mask]] and [df.loc[mask]] for a boolean mask. *)
Definition df_getitem_mask (df : DataFrame) (mask : list bool) : DataFrame :=
  mkDF (columns df) (mask_rows mask (rows df)).

(** ** Series methods *)

Definition is_null (x : scalar) : bool :=
  match x with SNull => true | _ => false end.

Definition dropna (l : list scalar) : list scalar :=
  List.filter (fun x => negb (is_null x)) l.

(** [Series.unique()]: the distinct values in first-seen order, the
    missing value included. *)
Fixpoint unique (l : list scalar) : list scalar :=
  match l with
  | [] => []
  | x :: l' => x :: List.filter (fun y => negb (bool_decide (y = x))) (unique l')
  end.

(** [Series.nunique()]: the number of distinct values that are not missing. *)
Definition nunique (s : Series) : nat := length (unique (dropna (s_values s))).

Definition num_values (l : list scalar) : list Z :=
  omap (fun x => match x with SNum z => Some z | _ => None end) l.

Definition date_values (l : list scalar) : list Z :=
  omap (fun x => match x with SDate t => Some t | _ => None end) l.

Definition list_min (l : list Z) : option Z :=
  match l with
  | [] => None
  | x :: l' => Some (fold_left Z.min l' x)
  end.

Definition list_max (l : list Z) : option Z :=
  match l with
  | [] => None
  | x :: l' => Some (fold_left Z.max l' x)
  end.

(** [float(x)] as an exact rational. *)
Definition float (z : Z) : Q := inject_Z z.

(** [lo <= x <= hi] on a number, both ends included; a missing value is
    outside every range. *)
Definition in_range_num (lo hi : Q) (x : scalar) : bool :=
  match x with
  | SNum z => Qle_bool lo (float z) && Qle_bool (float z) hi
  | _ => false
  end.

(** [Series.between(lo, hi)] on a numeric column. *)
Definition between_num (s : Series) (lo hi : Q) : list bool :=
  in_range_num lo hi <$> s_values s.

Definition in_range_date (lo hi : Z) (x : scalar) : bool :=
  match x with
  | SDate t => (lo <=? t)%Z && (t <=? hi)%Z
  | _ => false
  end.

(** [Series.between(start, end)] on a datetime column. *)
Definition between_date (s : Series) (lo hi : Z) : list bool :=
  in_range_date lo hi <$> s_values s.

Definition is_categorical_dtype (s : Series) : bool :=
  bool_decide (s_dtype s = Category).

Definition is_numeric_dtype (s : Series) : bool :=
  bool_decide (s_dtype s = Numeric).

Definition is_object_dtype (s : Series) : bool :=
  bool_decide (s_dtype s = Object).

Definition is_datetime64_any_dtype (s : Series) : bool :=
  match s_dtype s with Datetime _ => true | _ => false end.


Definition is_text (x : scalar) : bool :=
  match x with SStr _ => true | _ => false end.

(** [Series.dt.tz_localize(None)]: the wall-clock values stay, the time
    zone goes. *)
Definition tz_localize_none (s : Series) : Series :=
  mkSeries (Datetime None) (s_values s).

(** ** Exceptions and the rendered page *)

Inductive exn :=
| KeyError (key : string)
| ValueError
| AttributeError
| TypeError
| ReError (pat : string)
| StreamlitAPIException
| NameError.

(** What a run sends to the browser or reads from the upload, in order. *)
Inductive event :=
| EvElement (kind text : string)
| EvRadio (label : string) (options : list string)
| EvCheckbox (label : string)
| EvMultiselectColumns (label : string) (options : list string)
| EvMultiselect (label : string) (options default : list scalar)
| EvSlider (label : string) (min_value max_value : Q) (value : Q * Q) (step : Q)
| EvDateInput (label : string) (value : option Z * option Z)
| EvTextInput (label : string)
| EvReadExcel (sheet_name : string)
| EvDataframe (df : DataFrame)
| EvPlotly (kind : string) (df : DataFrame) (args : list string).

#[global] Instance Q_eq_dec : EqDecision Q.
Proof. solve_decision. Defined.

#[global] Instance exn_eq_dec : EqDecision exn.
Proof. solve_decision. Defined.

#[global] Instance event_eq_dec : EqDecision event.
Proof. solve_decision. Defined.

(** ** What the script does not define: the libraries' oracles *)

(** The development holds for every behaviour of pandas, [re], numpy,
    plotly and Streamlit in what follows.
    - [to_datetime_scalar x]: [None] when [x] does not parse as a date
      (pandas raises), otherwise the wall-clock time stamp, or [None]
      inside for a missing value (NaT);
    - [to_datetime_tz vs]: the time zone of the converted column;
    - [re_compile pat]: [None] when [pat] is not a valid pattern
      ([re.error]), otherwise the search predicate of the pattern;
    - [missing_among_options dt]: whether the missing value of
      [list(df[column].unique())], for a column of dtype [dt] that is not
      numeric, is found again among the options of a multiselect (the NaN
      of a numeric column never is: it equals nothing, itself included);
    - [missing_isin dt]: whether [isin] matches a missing cell of a
      column of dtype [dt] that is not numeric, when the values hold the
      missing value (for a numeric column it does not);
    - [default_sort key l]: [l] in ascending order of [key], as the
      default sort of [sort_values] (quicksort) leaves it; the sort sees
      the keys only, and nothing is promised about the order of elements
      with equal keys;
    - [element_error page e]: the exception Streamlit or plotly raise,
      if any, when the table or chart [e] is added to [page] (a column the
      chart needs is absent, a sum pandas refuses, an element that is already
      on the page). *)
Class Library := {
  to_datetime_scalar : scalar -> option (option Z);
  to_datetime_tz : list scalar -> option string;
  re_compile : string -> option (string -> bool);
  missing_among_options : dtype -> bool;
  missing_isin : dtype -> bool;
  default_sort : forall A : Type, (A -> Z) -> list A -> list A;
  default_sort_perm : forall A (key : A -> Z) (l : list A),
    default_sort A key l ≡ₚ l;
  default_sort_sorted : forall A (key : A -> Z) (l : list A),
    StronglySorted (fun a b => (key a <= key b)%Z) (default_sort A key l);
  element_error : list event -> event -> option exn
}.
Arguments default_sort {_ A} key l.

(** An uploaded workbook: its sheets by name. *)
Record xlsx := mkXlsx { sheets : list (string * DataFrame) }.

(** The user in front of the page: what each widget returns, given what
    the script passes to it. *)
Record User := mkUser {
  u_file_uploader : option xlsx;
  u_radio : string -> list string -> string;
  u_checkbox : string -> bool;
  u_multiselect_columns : string -> list string -> list string;
  u_multiselect : string -> list scalar -> list scalar -> list scalar;
  u_slider : string -> Q -> Q -> Q * Q -> Q -> Q * Q;
  u_date_input : string -> option Z * option Z -> list Z;
  u_text_input : string -> string
}.

(** ** The program state *)

(** DataFrame objects live in a store; a Python variable holds a
    reference.  The cache of [st.cache_data] maps a function's name and
    the arguments of the call to the stored return value. *)
Record state := mkState {
  heap : gmap nat DataFrame;
  trace : list event;
  cache : gmap (string * list string) DataFrame
}.

Inductive res (A : Type) :=
| Ok (a : A)
| Raise (e : exn).
Arguments Ok {A} a.
Arguments Raise {A} e.

Definition M (A : Type) : Type := state -> res A * state.

Definition ret {A} (a : A) : M A := fun s => (Ok a, s).

Definition bind {A B} (c : M A) (k : A -> M B) : M B :=
  fun s => match c s with
           | (Ok a, s') => k a s'
           | (Raise e, s') => (Raise e, s')
           end.

Definition raise {A} (e : exn) : M A := fun s => (Raise e, s).

Notation "x <- c ;; k" := (bind c (fun x => k))
  (at level 100, c at next level, right associativity).
Notation "c ;;; k" := (bind c (fun _ => k))
  (at level 100, right associativity).

(** [try: c except Exception: pass]; what [c] did to the state before it
    raised stays done. *)
Definition try_pass (c : M unit) : M unit :=
  fun s => match c s with
           | (Ok _, s') => (Ok tt, s')
           | (Raise _, s') => (Ok tt, s')
           end.

(** [for x in l: body(x)] *)
Fixpoint for_each {A} (l : list A) (body : A -> M unit) : M unit :=
  match l with
  | [] => ret tt
  | x :: l' => body x ;;; for_each l' body
  end.

(** [for x in l: v = body(x, v)], for a loop that rebinds one variable *)
Fixpoint for_fold {A V} (l : list A) (body : A -> V -> M V) (v : V) : M V :=
  match l with
  | [] => ret v
  | x :: l' => v' <- body x v ;; for_fold l' body v'
  end.

Definition emit (e : event) : M unit :=
  fun s => (Ok tt, mkState (heap s) (trace s ++ [e]) (cache s)).

(** *** The store *)

Definition alloc (d : DataFrame) : M nat :=
  fun s => let r := fresh (dom (heap s)) in
           (Ok r, mkState (<[r := d]> (heap s)) (trace s) (cache s)).

Definition load (r : nat) : M DataFrame :=
  fun s => match heap s !! r with
           | Some d => (Ok d, s)
           | None => (Raise NameError, s)
           end.

Definition store (r : nat) (d : DataFrame) : M unit :=
  fun s => (Ok tt, mkState (<[r := d]> (heap s)) (trace s) (cache s)).

(** *** pandas on DataFrame objects *)

(** [df.copy()] *)
Definition df_copy (df : nat) : M nat := d <- load df ;; alloc d.

(** [df.columns] *)
Definition df_columns (df : nat) : M (list string) :=
  d <- load df ;; ret (column_names d).

(** [df[column]] *)
Definition getitem (df : nat) (column : string) : M Series :=
  d <- load df ;;
  match df_getitem d column with
  | Some s => ret s
  | None => raise (KeyError column)
  end.

(** [df[column] = s]: the object [df] refers to is changed in place. *)
Definition setitem (df : nat) (column : string) (s : Series) : M unit :=
  d <- load df ;;
  match df_setitem d column s with
  | Some d' => store df d'
  | None => raise ValueError
  end.

(** [df[mask]], [df.loc[mask]]: a new object.  Every mask of the script
    is computed from a column of the same [df], so it has one entry per
    row. *)
Definition getitem_mask (df : nat) (mask : list bool) : M nat :=
  d <- load df ;; alloc (df_getitem_mask d mask).

(** ** Ordering rows *)

(** Insertion into a sorted list, before the first element that may follow
    [x]; with [stable_sort] this is a stable sort: rows that compare equal
    keep their first-seen order. *)
Fixpoint insert_by {A} (le : A -> A -> bool) (x : A) (l : list A) : list A :=
  match l with
  | [] => [x]
  | y :: l' => if le x y then x :: l else y :: insert_by le x l'
  end.

Fixpoint stable_sort {A} (le : A -> A -> bool) (l : list A) : list A :=
  match l with
  | [] => []
  | x :: l' => insert_by le x (stable_sort le l')
  end.

(** The value a row is ranked by: the number (or time stamp) in column
    [i], nothing for a missing value. *)
Definition quantity (i : nat) (row : list scalar) : option Z :=
  match cell i row with
  | SNum z => Some z
  | SDate t => Some t
  | _ => None
  end.

(** Descending order of the quantity, missing values last. *)
Definition largest_first (i : nat) (a b : list scalar) : bool :=
  match quantity i a, quantity i b with
  | Some x, Some y => (y <=? x)%Z
  | Some _, None => true
  | None, Some _ => false
  | None, None => true
  end.

(** Ascending order of the quantity, missing values last. *)
Definition smallest_first (i : nat) (a b : list scalar) : bool :=
  match quantity i a, quantity i b with
  | Some x, Some y => (x <=? y)%Z
  | Some _, None => true
  | None, Some _ => false
  | None, None => true
  end.

(** pandas refuses to rank an object or categorical column. *)
Definition rankable (s : Series) : bool :=
  is_numeric_dtype s || is_datetime64_any_dtype s.

(** ** Streamlit *)

Definition st_element (kind text : string) : M unit := emit (EvElement kind text).

(** [st.cache_data]: the key is the decorated function and the arguments
    of the call.  A hit hands out a fresh copy of the stored value and
    does not run the body; a miss runs the body and stores what it
    returned; an exception is not stored. *)
Definition cache_data (name : string) (args : list string) (body : M nat) : M nat :=
  fun s =>
    match cache s !! (name, args) with
    | Some d => alloc d s
    | None =>
        match body s with
        | (Ok r, s') =>
            match heap s' !! r with
            | Some d =>
                (Ok r, mkState (heap s') (trace s') (<[(name, args) := d]> (cache s')))
            | None => (Raise NameError, s')
            end
        | (Raise e, s') => (Raise e, s')
        end
    end.

(** [pd.read_excel(io, engine="openpyxl", sheet_name=...)]: the named
    sheet as a new DataFrame, ValueError when the workbook has no such
    sheet. *)
Fixpoint lookup_sheet (sheet_name : string) (l : list (string * DataFrame))
  : option DataFrame :=
  match l with
  | [] => None
  | (name, d) :: l' =>
      if decide (name = sheet_name) then Some d else lookup_sheet sheet_name l'
  end.

Definition read_excel (io : xlsx) (sheet_name : string) : M nat :=
  emit (EvReadExcel sheet_name) ;;;
  match lookup_sheet sheet_name (sheets io) with
  | Some d => alloc d
  | None => raise ValueError
  end.

(** ** The script *)

Section Script.
Context `{Library} (u : User).

(** *** Widgets: the call is rendered, the user's answer is returned *)

Definition st_checkbox (label : string) : M bool :=
  emit (EvCheckbox label) ;;; ret (u_checkbox u label).

Definition st_radio (label : string) (options : list string) : M string :=
  emit (EvRadio label options) ;;; ret (u_radio u label options).

Definition st_multiselect_columns (label : string) (options : list string)
  : M (list string) :=
  emit (EvMultiselectColumns label options) ;;;
  ret (u_multiselect_columns u label options).

(** [x in options], as the multiselect looks a default value up among its
    options.  [dt] is the dtype of the column both come from: it tells
    what Python objects the values are. *)
Definition option_found (dt : dtype) (options : list scalar) (x : scalar) : bool :=
  match x with
  | SNull =>
      match dt with
      | Numeric => false
      | _ => missing_among_options dt && bool_decide (SNull ∈ options)
      end
  | _ => bool_decide (x ∈ options)
  end.

(** [st.multiselect(label, options, default=default)]: a default value
    that is not among the options is refused before anything is
    rendered. *)
Definition st_multiselect (dt : dtype) (label : string) (options default : list scalar)
  : M (list scalar) :=
  if forallb (option_found dt options) default then
    emit (EvMultiselect label options default) ;;;
    ret (u_multiselect u label options default)
  else raise StreamlitAPIException.

Definition st_slider (label : string) (min_value max_value : Q) (value : Q * Q)
  (step : Q) : M (Q * Q) :=
  emit (EvSlider label min_value max_value value step) ;;;
  ret (u_slider u label min_value max_value value step).

Definition st_date_input (label : string) (value : option Z * option Z)
  : M (list Z) :=
  emit (EvDateInput label value) ;;; ret (u_date_input u label value).

Definition st_text_input (label : string) : M string :=
  emit (EvTextInput label) ;;; ret (u_text_input u label).

(** A table or a chart is added to the page, unless Streamlit or plotly
    raise. *)
Definition render (e : event) : M unit :=
  fun s => match element_error (trace s) e with
           | Some x => (Raise x, s)
           | None => emit e s
           end.

(** [st.dataframe(df)] *)
Definition st_dataframe (df : nat) : M unit :=
  d <- load df ;; render (EvDataframe d).

(** [st.plotly_chart(px.<kind>(df, ...))] over the columns [args]. *)
Definition st_plotly (kind : string) (df : nat) (args : list string) : M unit :=
  d <- load df ;; render (EvPlotly kind d args).

(** *** pandas calls whose result the libraries decide *)

(** [x in values] for a cell [x] of a column of dtype [dt], as [isin]
    decides it. *)
Definition isin_cell (dt : dtype) (values : list scalar) (x : scalar) : bool :=
  match x with
  | SNull =>
      match dt with
      | Numeric => false
      | _ => missing_isin dt && bool_decide (SNull ∈ values)
      end
  | _ => bool_decide (x ∈ values)
  end.

(** [Series.isin(values)] *)
Definition isin (s : Series) (values : list scalar) : list bool :=
  isin_cell (s_dtype s) values <$> s_values s.

(** [sort_values(by=column, ascending=...)] on the rows, with the default
    sort: the rows that have a quantity are sorted by it (for the
    descending order pandas reverses them, sorts in ascending order and
    reverses the result), the rows that have none come last, in table
    order. *)
Definition sort_values_rows (ascending : bool) (i : nat) (rs : list (list scalar))
  : list (list scalar) :=
  let key := fun r => default 0%Z (quantity i r) in
  let present := filter (fun r => is_Some (quantity i r)) rs in
  let missing := filter (fun r => ¬ is_Some (quantity i r)) rs in
  (if ascending then default_sort key present
   else reverse (default_sort key (reverse present))) ++ missing.

(** [DataFrame.nlargest(n, column)] with the default [keep='first'].
    When [n] is not below the number of rows pandas returns
    [sort_values(ascending=False).head(n)]; otherwise it picks the [n]
    largest with a stable sort, so that rows of equal quantity come in
    table order. *)
Definition nlargest_rows (n i : nat) (rs : list (list scalar)) : list (list scalar) :=
  if (length rs <=? n)%nat then take n (sort_values_rows false i rs)
  else take n (stable_sort (largest_first i) rs).

(** [DataFrame.nsmallest(n, column)] *)
Definition nsmallest_rows (n i : nat) (rs : list (list scalar)) : list (list scalar) :=
  if (length rs <=? n)%nat then take n (sort_values_rows true i rs)
  else take n (stable_sort (smallest_first i) rs).

Definition nlargest (df : nat) (n : nat) (column : string) : M nat :=
  d <- load df ;;
  s <- getitem df column ;;
  if rankable s then
    match column_index column (columns d) with
    | Some i => alloc (mkDF (columns d) (nlargest_rows n i (rows d)))
    | None => raise (KeyError column)
    end
  else raise TypeError.

Definition nsmallest (df : nat) (n : nat) (column : string) : M nat :=
  d <- load df ;;
  s <- getitem df column ;;
  if rankable s then
    match column_index column (columns d) with
    | Some i => alloc (mkDF (columns d) (nsmallest_rows n i (rows d)))
    | None => raise (KeyError column)
    end
  else raise TypeError.

(** [pd.to_datetime(s)] on a column: every value must parse. *)
Definition to_datetime (s : Series) : option Series :=
  vs ← mapM to_datetime_scalar (s_values s);
  Some (mkSeries (Datetime (to_datetime_tz (s_values s)))
                 ((fun v => from_option SDate SNull v) <$> vs)).

Definition pd_to_datetime (s : Series) : M Series :=
  match to_datetime s with
  | Some s' => ret s'
  | None => raise ValueError
  end.

(** [pd.to_datetime(d)] on a [datetime.date] (a day number): midnight of
    that day. *)
Definition date_to_datetime (d : Z) : Z := (d * 86400000000000)%Z.

(** What [str.contains] gives for one cell: a cell that is not text
    gives a missing value. *)
Definition contains_cell (search : string -> bool) (x : scalar) : option bool :=
  match x with
  | SStr t => Some (search t)
  | _ => None
  end.

(** [s.str.contains(pat)]: the [.str] accessor needs text, the pattern is
    compiled once. *)
Definition str_contains (s : Series) (pat : string) : M (list (option bool)) :=
  match s_dtype s with
  | Object | Category =>
      match re_compile pat with
      | Some search => ret (contains_cell search <$> s_values s)
      | None => raise (ReError pat)
      end
  | _ => raise AttributeError
  end.

(** [df[mask]] for the mask [str.contains] returns: pandas refuses a mask
    with missing values. *)
Definition getitem_object_mask (df : nat) (mask : list (option bool)) : M nat :=
  match mapM id mask with
  | Some m => getitem_mask df m
  | None => raise ValueError
  end.

(** *** [filter_dataframe] *)

(** Body of [for col in df.columns] (the datetime normalization). *)
Definition normalize_column (df : nat) (col : string) : M unit :=
  s <- getitem df col ;;
  (if is_object_dtype s then
     try_pass (s0 <- getitem df col ;;
               s' <- pd_to_datetime s0 ;;
               setitem df col s')
   else ret tt) ;;;
  s <- getitem df col ;;
  if is_datetime64_any_dtype s then
    s1 <- getitem df col ;;
    setitem df col (tz_localize_none s1)
  else ret tt.

(** Body of [for column in to_filter_columns]; [df] is the loop's
    variable, rebound to the narrowed table.  [df[column]] is read once:
    nothing between its reads in one iteration changes [df]. *)
Definition filter_column (column : string) (df : nat) : M nat :=
  st_element "write" "↳" ;;;
  s <- getitem df column ;;
  if is_categorical_dtype s || (nunique s <? 20)%nat then
    user_cat_input <- st_multiselect (s_dtype s) ("Values for " ++ column)
                        (unique (s_values s)) (unique (s_values s)) ;;
    getitem_mask df (isin s user_cat_input)
  else if is_numeric_dtype s then
    match list_min (num_values (s_values s)), list_max (num_values (s_values s)) with
    | Some mn, Some mx =>
        let _min := float mn in
        let _max := float mx in
        let step := ((_max - _min) / 100)%Q in
        user_num_input <- st_slider ("Values for " ++ column)
                            _min _max (_min, _max) step ;;
        getitem_mask df (between_num s user_num_input.1 user_num_input.2)
    | _, _ =>
        (* no number in the column: the bounds are NaN, which the slider
           refuses *)
        raise StreamlitAPIException
    end
  else if is_datetime64_any_dtype s then
    user_date_input <- st_date_input ("Values for " ++ column)
                         (list_min (date_values (s_values s)),
                          list_max (date_values (s_values s))) ;;
    match date_to_datetime <$> user_date_input with
    | [start_date; end_date] =>
        getitem_mask df (between_date s start_date end_date)
    | _ => ret df
    end
  else
    user_text_input <- st_text_input ("Substring or regex in " ++ column) ;;
    if bool_decide (user_text_input = "") then ret df
    else
      mask <- str_contains s user_text_input ;;
      getitem_object_mask df mask.

Definition filter_dataframe (df : nat) : M nat :=
  modify <- st_checkbox "Add filters" ;;
  if negb modify then ret df
  else
    df <- df_copy df ;;
    cols <- df_columns df ;;
    for_each cols (normalize_column df) ;;;
    options <- df_columns df ;;
    to_filter_columns <- st_multiselect_columns "Filter dataframe on" options ;;
    for_fold to_filter_columns filter_column df.

(** *** [get_data_from_excel] *)

(** The decorated function has no parameter: it reads the global
    [uploaded_file]. *)
Definition get_data_from_excel_body (uploaded_file : xlsx) : M nat :=
  read_excel uploaded_file "Monthly".

(** [get_data_from_excel()] under [@st.cache_data]: the call passes no
    argument, so the key holds none. *)
Definition get_data_from_excel (uploaded_file : xlsx) : M nat :=
  cache_data "get_data_from_excel" [] (get_data_from_excel_body uploaded_file).

(** *** The report views *)

(** The first three views only render: each is recorded as the table and
    the charts it draws; the sums inside the charts are not modelled. *)
Definition show_tab1 (filtered_df : nat) : M unit :=
  st_dataframe filtered_df ;;;
  st_plotly "bar" filtered_df ["TIPI"; "TUTAR"] ;;;
  st_plotly "bar" filtered_df ["TURU"; "TUTAR"] ;;;
  st_plotly "bar" filtered_df ["AY"; "TUTAR"] ;;;
  st_plotly "bar" filtered_df ["TURU"; "MIKTAR"] ;;;
  st_plotly "bar" filtered_df ["TIPI"; "MIKTAR"] ;;;
  st_plotly "bar" filtered_df ["AY"; "MIKTAR"].

Definition show_tab2 (filtered_df : nat) : M unit :=
  st_plotly "sunburst" filtered_df ["AY"; "TURU"; "TIPI"; "TUTAR"].

Definition show_tab3 (filtered_df : nat) : M unit :=
  st_plotly "sunburst" filtered_df ["AY"; "TURU"; "TIPI"; "MIKTAR"].

(** The Top 25 view: the two selections, then for each its heading, its
    table, two pie charts and two bar charts (the spinner shown while the
    view is built is no part of the page). *)
Definition show_tab4 (filtered_df : nat) : M unit :=
  dfx <- nlargest filtered_df 25 "MIKTAR" ;;
  dfy <- nsmallest filtered_df 25 "MIKTAR" ;;
  st_element "title" "TOP 25" ;;;
  st_element "markdown" "**En çok satan 25 ürün _(miktara göre)_**" ;;;
  st_dataframe dfx ;;;
  st_plotly "pie" dfx ["MIKTAR"; "TURU"] ;;;
  st_plotly "pie" dfx ["MIKTAR"; "TIPI"] ;;;
  st_plotly "bar" dfx ["TURU"; "MIKTAR"] ;;;
  st_plotly "bar" dfx ["TIPI"; "MIKTAR"] ;;;
  st_element "markdown" "---" ;;;
  st_element "markdown" "**En az satan 25 ürün _(miktara göre)_**" ;;;
  st_dataframe dfy ;;;
  st_plotly "pie" dfy ["MIKTAR"; "TURU"] ;;;
  st_plotly "pie" dfy ["MIKTAR"; "TIPI"] ;;;
  st_plotly "bar" dfy ["TURU"; "MIKTAR"] ;;;
  st_plotly "bar" dfy ["TIPI"; "MIKTAR"].

(** *** The main page: one run of the script *)

Definition main_page : M unit :=
  st_element "image" "logo.jpg" ;;;
  st_element "title" "Coffee Shop Reporting Dashboard" ;;;
  st_element "success" "** Note ** -> The sheet, named Monthly, will be import" ;;;
  match u_file_uploader u with
  | Some uploaded_file =>
      chsn <- st_radio "Tablo Seç:"
                ["Ana Tablo"; "Sunburst - Tutara Göre";
                 "Sunburst - Miktara Göre"; "Top 25"] ;;
      st_element "write" "<style>div.row-widget.stRadio > div{flex-direction:row;}</style>" ;;;
      excel_df <- get_data_from_excel uploaded_file ;;
      filtered_df <- filter_dataframe excel_df ;;
      (if bool_decide (chsn = "Ana Tablo") then show_tab1 filtered_df
       else if bool_decide (chsn = "Sunburst - Tutara Göre") then show_tab2 filtered_df
       else if bool_decide (chsn = "Sunburst - Miktara Göre") then show_tab3 filtered_df
       else if bool_decide (chsn = "Top 25") then show_tab4 filtered_df
       else ret tt)
  | None => ret tt
  end ;;;
  st_element "markdown" "footer {visibility: hidden;}".

(** *** The normalization pass on a table value *)

(** What one iteration of the normalization loop leaves in the object
    [df] refers to, as a function of what it held. *)
Definition normalized_column (col : string) (d : DataFrame) : DataFrame :=
  let d1 :=
    match df_getitem d col with
    | Some s =>
        if is_object_dtype s then
          match to_datetime s with
          | Some s' => default d (df_setitem d col s')
          | None => d
          end
        else d
    | None => d
    end in
  match df_getitem d1 col with
  | Some s =>
      if is_datetime64_any_dtype s
      then default d1 (df_setitem d1 col (tz_localize_none s))
      else d1
  | None => d1
  end.

(** The normalized table: the loop over [df.columns]. *)
Definition normalized (d : DataFrame) : DataFrame :=
  foldl (fun d' col => normalized_column col d') d (column_names d).

(** The table the column filters start from: the normalized copy when
    the user filters, the input itself when the checkbox is off. *)
Definition working_table (d : DataFrame) : DataFrame :=
  if u_checkbox u "Add filters" then normalized d else d.

(** *** The predicate of a filter step *)

(** The test on the cells of [column] by which a step of the filter loop
    keeps or drops a row, given the column [s] the step reads: the
    membership in what the multiselect returned, the range the slider or
    the two dates returned, the search of the pattern typed; the test
    that holds of every cell when the step keeps the table (one date, an
    empty pattern).  [None] when the step ends in an exception. *)
Definition column_test (column : string) (s : Series) : option (scalar -> bool) :=
  if is_categorical_dtype s || (nunique s <? 20)%nat then
    let options := unique (s_values s) in
    if forallb (option_found (s_dtype s) options) options then
      Some (isin_cell (s_dtype s)
              (u_multiselect u ("Values for " ++ column) options options))
    else None
  else if is_numeric_dtype s then
    match list_min (num_values (s_values s)), list_max (num_values (s_values s)) with
    | Some mn, Some mx =>
        let user_num_input :=
          u_slider u ("Values for " ++ column) (float mn) (float mx)
            (float mn, float mx) ((float mx - float mn) / 100)%Q in
        Some (in_range_num user_num_input.1 user_num_input.2)
    | _, _ => None
    end
  else if is_datetime64_any_dtype s then
    match date_to_datetime <$>
          u_date_input u ("Values for " ++ column)
            (list_min (date_values (s_values s)), list_max (date_values (s_values s)))
    with
    | [start_date; end_date] => Some (in_range_date start_date end_date)
    | _ => Some (fun _ => true)
    end
  else
    let pat := u_text_input u ("Substring or regex in " ++ column) in
    if bool_decide (pat = "") then Some (fun _ => true)
    else
      match s_dtype s with
      | Object | Category =>
          search ← re_compile pat;
          _ ← mapM (contains_cell search) (s_values s);
          Some (fun x => default false (contains_cell search x))
      | _ => None
      end.

End Script.

(** ** Column filters on table values *)

(** [df[p(df[c])]]: the rows whose cell in column [c] satisfies [p]. *)
Definition column_filter (d : DataFrame) (c : string) (p : scalar -> bool)
  : option DataFrame :=
  s ← df_getitem d c;
  Some (df_getitem_mask d (p <$> s_values s)).

(** [df[p1(df[c1]) & p2(df[c2])]] *)
Definition conjunction_filter (d : DataFrame) (c1 : string) (p1 : scalar -> bool)
  (c2 : string) (p2 : scalar -> bool) : option DataFrame :=
  s1 ← df_getitem d c1;
  s2 ← df_getitem d c2;
  Some (df_getitem_mask d (zip_with andb (p1 <$> s_values s1) (p2 <$> s_values s2))).

(** A column of dtype numeric holds numbers and missing values only. *)
Definition numeric_column (s : Series) : bool :=
  is_numeric_dtype s &&
  forallb (fun x => match x with SNum _ | SNull => true | _ => false end) (s_values s).

(** A column without a missing value. *)
Definition notna_all (s : Series) : bool :=
  forallb (fun x => negb (is_null x)) (s_values s).

(** A rerun of the script renders the page anew; the objects and the
    cache of the session stay. *)
Definition rerun (s : state) : state := mkState (heap s) [] (cache s).

(** ** What a step of the filter loop may do *)

(** [narrows df d s out]: started in [s] with the loop variable [df]
    holding the table [d], a computation ended in [out] having left every
    object and the cache as they were; what it returned is [df] itself or
    a new object, holding rows of [d] in their order under the columns of
    [d]. *)
Definition narrows (df : nat) (d : DataFrame) (s : state) (out : res nat * state) : Prop :=
  heap s ⊆ heap out.2 /\ cache out.2 = cache s /\
  match out.1 with
  | Ok r => (r = df \/ heap s !! r = None) /\
            exists d', heap out.2 !! r = Some d' /\ columns d' = columns d /\
                       rows d' `sublist_of` rows d
  | Raise _ => True
  end.

(** The range controls of the filter. *)
Definition is_range_control (e : event) : bool :=
  match e with
  | EvSlider _ _ _ _ _ | EvDateInput _ _ => true
  | _ => false
  end.


(** What a report view renders. *)
Definition is_report (e : event) : bool :=
  match e with
  | EvDataframe _ | EvPlotly _ _ _ => true
  | _ => false
  end.


(** ** Sample data *)

Module Examples.

(** Literal search of [pat] in [t]. *)
Fixpoint find_literal (pat t : string) : bool :=
  String.prefix pat t ||
  match t with
  | EmptyString => false
  | String _ t' => find_literal pat t'
  end.

(** A default sort that does not keep equal keys in the order it found
    them in: a merge sort of the reversed list. *)
Definition sample_sort (A : Type) (key : A -> Z) (l : list A) : list A :=
  @merge_sort A (fun a b => (key a <= key b)%Z)
    (fun a b => decide (key a <= key b)%Z) (reverse l).

Lemma sample_sort_perm (A : Type) (key : A -> Z) (l : list A) :
  sample_sort A key l ≡ₚ l.
Proof.
  unfold sample_sort. rewrite merge_sort_Permutation. apply reverse_Permutation.
Qed.

Lemma sample_sort_sorted (A : Type) (key : A -> Z) (l : list A) :
  StronglySorted (fun a b => (key a <= key b)%Z) (sample_sort A key l).
Proof.
  unfold sample_sort. apply StronglySorted_merge_sort.
  - intros a b c. lia.
  - intros a b. lia.
Qed.

(** A library in which the text "2024-01-01" parses as that day (at
    midnight, in nanoseconds since 1970) and no other text below does; in
    which the pattern "(" (an unterminated group, [re.error] in Python)
    does not compile, every other pattern used below being plain text; in
    which the missing value of a text column is found among the
    options and by [isin]; and in which every table and chart renders. *)
Definition library : Library := {|
  to_datetime_scalar := fun x =>
    match x with
    | SNull => Some None
    | SStr t => if bool_decide (t = "2024-01-01")
                then Some (Some 1704067200000000000%Z) else None
    | _ => None
    end;
  to_datetime_tz := fun _ => None;
  re_compile := fun pat =>
    if bool_decide (pat = "(") then None else Some (find_literal pat);
  missing_among_options := fun _ => true;
  missing_isin := fun _ => true;
  default_sort := sample_sort;
  default_sort_perm := sample_sort_perm;
  default_sort_sorted := sample_sort_sorted;
  element_error := fun _ _ => None
|}.

Definition sales_columns : list (string * dtype) :=
  [("AY", Numeric); ("TURU", Object); ("TIPI", Object);
   ("MIKTAR", Numeric); ("TUTAR", Numeric)].

Definition products : list string :=
  ["Americano"; "Cappuccino"; "Cortado"; "Espresso"; "Flat White";
   "Latte"; "Macchiato"; "Mocha"; "Ristretto"; "Affogato";
   "Frappe"; "Cold Brew"; "Iced Latte"; "Lemonade"; "Iced Tea";
   "Croissant"; "Brownie"; "Cookie"; "Muffin"; "Bagel"].

Definition kind_of (n : nat) : string :=
  if (n <? 10)%nat then "Sicak" else if (n <? 15)%nat then "Soguk" else "Yiyecek".

(** Twenty products sold in January: product [n] sold [3 n + 1] times. *)
Definition january_sales : DataFrame :=
  mkDF sales_columns
    (imap (fun n p => [SNum 1; SStr (kind_of n); SStr p;
                       SNum (3 * Z.of_nat n + 1); SNum (45 * (3 * Z.of_nat n + 1))])
          products).

(** A short month: every row sold seven. *)
Definition february_sales : DataFrame :=
  mkDF sales_columns
    [[SNum 2; SStr "Sicak"; SStr "Latte"; SNum 7; SNum 315];
     [SNum 2; SStr "Soguk"; SStr "Frappe"; SNum 7; SNum 350];
     [SNum 2; SStr "Yiyecek"; SStr "Bagel"; SNum 7; SNum 210]].

(** A month in which one quantity was not entered. *)
Definition march_sales : DataFrame :=
  mkDF sales_columns
    [[SNum 3; SStr "Sicak"; SStr "Latte"; SNum 7; SNum 315];
     [SNum 3; SStr "Soguk"; SStr "Frappe"; SNull; SNum 350];
     [SNum 3; SStr "Yiyecek"; SStr "Bagel"; SNum 7; SNum 210]].


(** One delivery, its day kept as text. *)
Definition delivery : DataFrame :=
  mkDF [("TARIH", Object); ("MIKTAR", Numeric)] [[SStr "2024-01-01"; SNum 3]].

(** Sixty rows with quantities 0 .. 59. *)
Definition busy_month : list (list scalar) :=
  (fun n => [SNum 3; SStr "Sicak"; SStr "Latte"; SNum (Z.of_nat n); SNum 45]) <$> seq 0 60.

Definition busy_sales : DataFrame := mkDF sales_columns busy_month.

Definition january : xlsx := mkXlsx [("Notes", mkDF [] []); ("Monthly", january_sales)].
Definition february : xlsx := mkXlsx [("Monthly", february_sales)].

(** A user who uploads [file], looks at [view], ticks "Add filters" or
    not, picks the columns [selection], leaves every control at its
    default and types [pattern] into every text box. *)
Definition user (file : option xlsx) (view : string) (filters : bool)
  (selection : list string) (pattern : string) : User := {|
  u_file_uploader := file;
  u_radio := fun _ _ => view;
  u_checkbox := fun _ => filters;
  u_multiselect_columns := fun _ _ => selection;
  u_multiselect := fun _ _ default => default;
  u_slider := fun _ _ _ value _ => value;
  u_date_input := fun _ _ => [];
  u_text_input := fun _ => pattern
|}.

(** Uploads January, leaves the filters off. *)
Definition reader : User := user (Some january) "Ana Tablo" false [] "".

(** Uploads January, filters on the category and the quantity, opens the
    Top 25 view. *)
Definition shopper : User := user (Some january) "Top 25" true ["TURU"; "MIKTAR"] "".

(** Uploads January, filters on the product name and types "(". *)
Definition typist : User := user (Some january) "Ana Tablo" true ["TIPI"] "(".

(** Uploads February and filters on the quantity. *)
Definition counter : User := user (Some february) "Ana Tablo" true ["MIKTAR"] "".

(** Filters on the quantity and then on the category: drags the slider
    to the range 10 .. 49 and leaves the categories as they are. *)
Definition ranger : User := {|
  u_file_uploader := None;
  u_radio := fun _ _ => "Top 25";
  u_checkbox := fun _ => true;
  u_multiselect_columns := fun _ _ => ["MIKTAR"; "TURU"];
  u_multiselect := fun _ _ default => default;
  u_slider := fun _ _ _ _ _ => (10 # 1, 49 # 1)%Q;
  u_date_input := fun _ _ => [];
  u_text_input := fun _ => ""
|}.

(** January with one more row, whose product name is missing. *)
Definition patchy_sales : DataFrame :=
  mkDF sales_columns
    (rows january_sales ++ [[SNum 1; SStr "Sicak"; SNull; SNum 2; SNum 90]]).

(** Twenty deliveries, one a day from 1970-01-01 on. *)
Definition deliveries : DataFrame :=
  mkDF [("TARIH", Datetime None); ("MIKTAR", Numeric)]
    ((fun n => [SDate (Z.of_nat n * 86400000000000); SNum (Z.of_nat n)]) <$> seq 0 20).

(** A table whose quantities were entered as text. *)
Definition text_quantities : DataFrame :=
  mkDF [("TIPI", Object); ("MIKTAR", Object)] [[SStr "Latte"; SStr "7"]].

(** A workbook without the sheet the loader asks for. *)
Definition notes_only : xlsx := mkXlsx [("Notes", mkDF [] [])].

(** Filters on the product name and types "Latte". *)
Definition latte_fan : User := user (Some january) "Ana Tablo" true ["TIPI"] "Latte".

(** Ticks the checkbox and selects no column. *)
Definition onlooker : User := user (Some january) "Ana Tablo" true [] "".

(** Opens the page and uploads nothing. *)
Definition visitor : User := user None "Ana Tablo" false [] "".

(** Filters on the day of the deliveries and picks the days 3 to 7. *)
Definition scheduler : User := {|
  u_file_uploader := None;
  u_radio := fun _ _ => "Ana Tablo";
  u_checkbox := fun _ => true;
  u_multiselect_columns := fun _ _ => ["TARIH"];
  u_multiselect := fun _ _ default => default;
  u_slider := fun _ _ _ value _ => value;
  u_date_input := fun _ _ => [3%Z; 7%Z];
  u_text_input := fun _ => ""
|}.

(** A fresh session: no object, nothing rendered, nothing cached. *)
Definition start : state := mkState ∅ [] ∅.

(** A session holding one table. *)
Definition holding (d : DataFrame) : state := mkState {[ 0%nat := d ]} [] ∅.

End Examples.

(** ** Properties *)

(** *** Running the monad, the store and the widgets *)

Lemma bind_Ok {A B} (c : M A) (k : A -> M B) s a s' :
  c s = (Ok a, s') -> bind c k s = k a s'.
Proof. intros E. unfold bind. by rewrite E. Qed.

Lemma bind_Raise {A B} (c : M A) (k : A -> M B) s e s' :
  c s = (Raise e, s') -> bind c k s = (Raise e, s').
Proof. intros E. unfold bind. by rewrite E. Qed.

(** A sequence that ends well has run its first part well. *)
Lemma bind_Ok_inv {A B} (c : M A) (k : A -> M B) s b s' :
  bind c k s = (Ok b, s') -> exists a s1, c s = (Ok a, s1) /\ k a s1 = (Ok b, s').
Proof.
  unfold bind. destruct (c s) as [[a|e] s1]; [|done]. intros E. by exists a, s1.
Qed.

Lemma load_Ok r d s : heap s !! r = Some d -> load r s = (Ok d, s).
Proof. intros E. unfold load. by rewrite E. Qed.

Lemma fresh_lookup (h : gmap nat DataFrame) : h !! fresh (dom h) = None.
Proof. apply not_elem_of_dom, is_fresh. Qed.

Lemma getitem_Ok df c s d ser :
  heap s !! df = Some d -> df_getitem d c = Some ser ->
  getitem df c s = (Ok ser, s).
Proof.
  intros Hd Hc. unfold getitem. rewrite (bind_Ok _ _ _ _ _ (load_Ok _ _ _ Hd)).
  by rewrite Hc.
Qed.

Lemma getitem_mask_Ok df mask s d :
  heap s !! df = Some d ->
  getitem_mask df mask s
  = (Ok (fresh (dom (heap s))),
     mkState (<[fresh (dom (heap s)) := df_getitem_mask d mask]> (heap s))
             (trace s) (cache s)).
Proof.
  intros Hd. unfold getitem_mask. by rewrite (bind_Ok _ _ _ _ _ (load_Ok _ _ _ Hd)).
Qed.

(** *** Columns and masks of a table *)

Lemma df_getitem_Some d c s :
  df_getitem d c = Some s <->
  exists i dt, column_index c (columns d) = Some i /\
               (columns d).*2 !! i = Some dt /\
               s = mkSeries dt (cell i <$> rows d).
Proof.
  unfold df_getitem. split.
  - intros E. destruct (column_index c (columns d)) as [i|]; simplify_option_eq.
    eauto.
  - intros (i & dt & -> & Hdt & ->). simpl. by rewrite Hdt.
Qed.

Lemma df_getitem_length d c ser :
  df_getitem d c = Some ser -> length (s_values ser) = length (rows d).
Proof.
  intros (i & dt & _ & _ & ->)%df_getitem_Some. simpl. by rewrite length_fmap.
Qed.

Lemma column_index_Some c cols i :
  column_index c cols = Some i -> exists dt, cols !! i = Some (c, dt).
Proof.
  revert i. induction cols as [|[c' dt'] cols IH]; intros i; simpl; [done|].
  destruct (decide (c' = c)) as [->|Hne].
  - intros [= <-]. by exists dt'.
  - destruct (column_index c cols) as [j|]; simpl; [|done].
    intros [= <-]. by apply IH.
Qed.

Lemma column_index_elem_of c cols :
  c ∈ cols.*1 -> is_Some (column_index c cols).
Proof.
  induction cols as [|[c' dt'] cols IH]; csimpl; [by intros ?%elem_of_nil|].
  destruct (decide (c' = c)) as [->|Hne]; [done|].
  intros [->|Hin]%elem_of_cons; [done|].
  destruct (IH Hin) as [j ->]. done.
Qed.

Lemma column_index_insert c cols i dt :
  column_index c cols = Some i ->
  column_index c (<[i := (c, dt)]> cols) = Some i.
Proof.
  revert i. induction cols as [|[c' dt'] cols IH]; intros i; simpl; [done|].
  destruct (decide (c' = c)) as [->|Hne].
  - intros [= <-]. simpl. by rewrite decide_True.
  - destruct (column_index c cols) as [j|] eqn:E; simpl; [|done].
    intros [= <-]. simpl. rewrite decide_False by done. by rewrite (IH j).
Qed.

Lemma df_getitem_elem_of d c :
  c ∈ column_names d -> is_Some (df_getitem d c).
Proof.
  intros [i Hi]%column_index_elem_of.
  destruct (column_index_Some _ _ _ Hi) as [dt Hdt].
  exists (mkSeries dt (cell i <$> rows d)). apply df_getitem_Some.
  exists i, dt. split_and!; [done| |done].
  by rewrite list_lookup_fmap, Hdt.
Qed.

Lemma length_set_cells i rs vs :
  length vs = length rs -> length (set_cells i rs vs) = length rs.
Proof.
  revert vs. induction rs as [|r rs IH]; intros [|v vs]; simpl; try done.
  intros [= Hlen]. by rewrite IH.
Qed.

(** Assigning to a column that exists: names and row count stay. *)
Lemma df_setitem_existing d c ser s' :
  df_getitem d c = Some ser -> length (s_values s') = length (rows d) ->
  exists d', df_setitem d c s' = Some d' /\
             column_names d' = column_names d /\
             length (rows d') = length (rows d) /\
             is_Some (df_getitem d' c).
Proof.
  intros (i & dt & Hi & Hdt & ->)%df_getitem_Some Hlen.
  unfold df_setitem. rewrite decide_True by done. rewrite Hi.
  eexists. split; [done|].
  destruct (column_index_Some _ _ _ Hi) as [dt' Hc].
  unfold column_names. simpl. split_and!.
  - rewrite list_fmap_insert. simpl. apply list_insert_id.
    by rewrite list_lookup_fmap, Hc.
  - by apply length_set_cells.
  - eexists. apply df_getitem_Some. exists i, (s_dtype s'). simpl.
    split_and!; [by apply column_index_insert| |done].
    rewrite list_fmap_insert. simpl. apply list_lookup_insert_eq.
    rewrite length_fmap. by eapply lookup_lt_Some.
Qed.

Lemma mask_rows_fmap {A} (p : A -> bool) (rs : list A) :
  mask_rows (p <$> rs) rs = List.filter p rs.
Proof.
  induction rs as [|r rs IH]; csimpl; [done|]. by rewrite IH.
Qed.

Lemma mask_rows_all {A} (m : list bool) (rs : list A) :
  length m = length rs -> Forall (fun b => b = true) m -> mask_rows m rs = rs.
Proof.
  revert rs. induction m as [|b m IH]; intros [|r rs] Hlen Hall; simpl in *; try done.
  inversion Hall; subst. f_equal. apply IH; [lia|done].
Qed.

Lemma mask_rows_sublist {A} (m : list bool) (rs : list A) :
  mask_rows m rs `sublist_of` rs.
Proof.
  revert rs. induction m as [|b m IH]; intros [|r rs]; simpl;
    [apply sublist_nil|apply sublist_nil_l|apply sublist_nil|].
  destruct b; [by apply sublist_skip|by apply sublist_cons].
Qed.

Lemma zip_with_andb_fmap {A} (p q : A -> bool) (l : list A) :
  zip_with andb (p <$> l) (q <$> l) = (fun x => p x && q x) <$> l.
Proof. induction l as [|x l IH]; csimpl; [done|]. by rewrite IH. Qed.

Lemma filter_filter_andb {A} (p q : A -> bool) (l : list A) :
  List.filter q (List.filter p l) = List.filter (fun x => p x && q x) l.
Proof.
  induction l as [|x l IH]; simpl; [done|].
  destruct (p x); simpl; [destruct (q x)|]; by rewrite IH.
Qed.

(** Filtering on one column and then, in the narrowed table, on a second
    column gives the table that the conjunction of the two masks selects
    from the original table; a column that is missing is the same
    KeyError on both sides. *)
Lemma column_filter_twice
  (d : DataFrame) (c1 c2 : string) (p1 p2 : scalar -> bool) :
  column_filter d c1 p1 ≫= (fun d1 => column_filter d1 c2 p2)
  = conjunction_filter d c1 p1 c2 p2.
Proof.
  unfold column_filter, conjunction_filter.
  destruct (df_getitem d c1) as [s1|] eqn:E1; [|done].
  apply df_getitem_Some in E1 as (i1 & dt1 & Hi1 & Hdt1 & ->). csimpl.
  unfold df_getitem at 1 2, df_getitem_mask. csimpl.
  destruct (column_index c2 (columns d)) as [i2|]; [|done]. csimpl.
  destruct ((columns d).*2 !! i2) as [dt2|]; [|done]. csimpl.
  do 2 f_equal.
  rewrite <- !list_fmap_compose, zip_with_andb_fmap.
  rewrite !mask_rows_fmap. apply filter_filter_andb.
Qed.

(** A test that holds of every cell keeps the table. *)
Lemma column_filter_true d c ser :
  df_getitem d c = Some ser -> column_filter d c (fun _ => true) = Some d.
Proof.
  intros Hc. unfold column_filter. rewrite Hc. csimpl. f_equal.
  unfold df_getitem_mask. rewrite mask_rows_all.
  - by destruct d.
  - rewrite length_fmap. by eapply df_getitem_length.
  - apply Forall_fmap, Forall_forall. done.
Qed.

(** *** Masks with missing values *)

Lemma mapM_id_fmap {A B} (f : A -> option B) (l : list A) :
  mapM id (f <$> l) = mapM f l.
Proof.
  induction l as [|x l IH]; [done|].
  change (mapM id (f <$> x :: l)) with (y ← f x; k ← mapM id (f <$> l); mret (y :: k)).
  by rewrite IH.
Qed.

Lemma mapM_Some_default {A B} (f : A -> option B) (l : list A) (m : list B) (b : B) :
  mapM f l = Some m -> m = (fun x => default b (f x)) <$> l.
Proof.
  intros Hm%mapM_Some_1. induction Hm as [|x y l m Hxy _ IH]; csimpl; [done|].
  by rewrite Hxy, <- IH.
Qed.

(** *** [unique] *)

Lemma elem_of_unique (x : scalar) (l : list scalar) : x ∈ unique l <-> x ∈ l.
Proof.
  induction l as [|y l IH]; simpl; [done|].
  rewrite !elem_of_cons, <- IH, !list_elem_of_In, filter_In, <- !list_elem_of_In.
  destruct (decide (x = y)) as [->|Hne].
  - rewrite bool_decide_eq_true_2 by done. simpl. intuition congruence.
  - rewrite bool_decide_eq_false_2 by done. simpl. intuition congruence.
Qed.

Lemma NoDup_list_filter {A} (p : A -> bool) (l : list A) :
  NoDup l -> NoDup (List.filter p l).
Proof.
  induction 1 as [|x l Hx Hl IH]; simpl; [constructor|].
  destruct (p x); [|done]. constructor; [|done].
  rewrite list_elem_of_In, filter_In, <- list_elem_of_In. tauto.
Qed.

Lemma NoDup_unique (l : list scalar) : NoDup (unique l).
Proof.
  induction l as [|y l IH]; simpl; constructor.
  - rewrite list_elem_of_In, filter_In. intros [_ Hy].
    by rewrite bool_decide_eq_true_2 in Hy.
  - by apply NoDup_list_filter.
Qed.

(** *** Minimum and maximum of a column *)

Lemma fold_left_min_le (l : list Z) (a : Z) :
  (fold_left Z.min l a <= a)%Z /\ Forall (fun x => (fold_left Z.min l a <= x)%Z) l.
Proof.
  revert a. induction l as [|x l IH]; intros a; simpl; [split; [lia|constructor]|].
  destruct (IH (Z.min a x)) as [Ha Hl]. split; [lia|].
  constructor; [lia|done].
Qed.

Lemma fold_left_max_ge (l : list Z) (a : Z) :
  (a <= fold_left Z.max l a)%Z /\ Forall (fun x => (x <= fold_left Z.max l a)%Z) l.
Proof.
  revert a. induction l as [|x l IH]; intros a; simpl; [split; [lia|constructor]|].
  destruct (IH (Z.max a x)) as [Ha Hl]. split; [lia|].
  constructor; [lia|done].
Qed.

Lemma list_min_le (l : list Z) (m : Z) :
  list_min l = Some m -> Forall (fun x => (m <= x)%Z) l.
Proof.
  destruct l as [|a l]; simpl; [done|]. intros [= <-].
  destruct (fold_left_min_le l a). by constructor.
Qed.

Lemma list_max_ge (l : list Z) (m : Z) :
  list_max l = Some m -> Forall (fun x => (x <= m)%Z) l.
Proof.
  destruct l as [|a l]; simpl; [done|]. intros [= <-].
  destruct (fold_left_max_ge l a). by constructor.
Qed.

Lemma min_eq_max_constant (l : list Z) (v : Z) :
  list_min l = Some v -> list_max l = Some v -> Forall (fun x => x = v) l.
Proof.
  intros Hmin%list_min_le Hmax%list_max_ge.
  rewrite Forall_forall in *. intros x Hx.
  specialize (Hmin x Hx). specialize (Hmax x Hx). lia.
Qed.

Lemma NoDup_constant_length {A} (a : A) (l : list A) :
  NoDup l -> Forall (fun x => x = a) l -> (length l <= 1)%nat.
Proof.
  intros Hnd Hall. destruct l as [|x [|y l]]; simpl; [lia|lia|].
  exfalso. inversion Hall as [|? ? -> Hall']; subst.
  inversion Hall' as [|? ? -> _]; subst.
  inversion Hnd as [|? ? Hx _]; subst. apply Hx. by left.
Qed.

(** The values of a numeric column that are not missing are its numbers. *)
Lemma dropna_numeric_column (ser : Series) :
  numeric_column ser = true ->
  dropna (s_values ser) = SNum <$> num_values (s_values ser).
Proof.
  unfold numeric_column. intros [_ Hall]%andb_prop.
  induction (s_values ser) as [|x l IH]; simpl in *; [done|].
  apply andb_prop in Hall as [Hx Hl].
  destruct x; simpl in *; try done; unfold num_values in *; csimpl; rewrite IH; done.
Qed.

(** A numeric column whose minimum is its maximum has one distinct value. *)
Lemma nunique_min_eq_max (ser : Series) (v : Z) :
  numeric_column ser = true ->
  list_min (num_values (s_values ser)) = Some v ->
  list_max (num_values (s_values ser)) = Some v ->
  nunique ser = 1%nat.
Proof.
  intros Hnum Hmin Hmax. unfold nunique. rewrite (dropna_numeric_column _ Hnum).
  pose proof (min_eq_max_constant _ _ Hmin Hmax) as Hall.
  destruct (num_values (s_values ser)) as [|x l] eqn:E; [done|].
  assert (Hle : (length (unique (SNum <$> x :: l)) <= 1)%nat).
  { apply (NoDup_constant_length (SNum v)); [apply NoDup_unique|].
    apply Forall_forall. intros y Hy.
    apply (proj1 (elem_of_unique _ _)) in Hy.
    apply list_elem_of_fmap in Hy as (z & -> & Hz).
    rewrite Forall_forall in Hall. by rewrite (Hall z Hz). }
  csimpl in *. lia.
Qed.

(** A column that is one value throughout has that value as its only
    distinct value. *)
Lemma unique_constant (x : scalar) (l : list scalar) :
  l <> [] -> Forall (fun y => y = x) l -> unique l = [x].
Proof.
  intros Hne Hall. destruct l as [|y l]; [done|].
  apply Forall_cons in Hall as [-> Hl]. simpl. f_equal.
  assert (G : forall k, Forall (fun y => y = x) k ->
                List.filter (fun y => negb (bool_decide (y = x))) k = []).
  { induction 1 as [|z k -> _ IHk]; simpl; [done|].
    by rewrite bool_decide_eq_true_2. }
  apply G, Forall_forall. intros y Hy.
  apply (proj1 (elem_of_unique _ _)) in Hy.
  rewrite Forall_forall in Hl. by apply Hl.
Qed.

(** *** What [narrows] is built from *)

Lemma narrows_same df d h t t' c :
  h !! df = Some d ->
  narrows df d (mkState h t c) (Ok df, mkState h t' c).
Proof.
  intros Hd. unfold narrows. simpl. split_and!; [done|done|by left|]. by exists d.
Qed.

Lemma narrows_mask df d h t t' c mask :
  narrows df d (mkState h t c)
    (Ok (fresh (dom h)), mkState (<[fresh (dom h) := df_getitem_mask d mask]> h) t' c).
Proof.
  unfold narrows. simpl. split_and!; [|done|right; apply fresh_lookup|].
  - apply insert_subseteq, fresh_lookup.
  - eexists. split; [apply lookup_insert_eq|]. simpl. split; [done|].
    apply mask_rows_sublist.
Qed.

Lemma narrows_raise df d h t t' c e :
  narrows df d (mkState h t c) (Raise e, mkState h t' c).
Proof. by split_and!. Qed.

Lemma narrows_trans df d d1 s s1 r1 out :
  narrows df d s (Ok r1, s1) -> heap s1 !! r1 = Some d1 -> narrows r1 d1 s1 out ->
  narrows df d s out.
Proof.
  intros (Hh & Hc & Hr1 & d1' & Hd1' & Hcols & Hrows) Hd1 (Hh' & Hc' & Hout).
  simpl in *. rewrite Hd1 in Hd1'. injection Hd1' as <-.
  split_and!.
  - by etrans.
  - congruence.
  - destruct (out.1) as [r|e]; [|done].
    destruct Hout as ([->|Hr] & d2 & ? & ? & ?).
    + split; [done|]. exists d2. split_and!; [done|congruence|by etrans].
    + split.
      * right. destruct (heap s !! r) as [x|] eqn:E; [|done].
        by rewrite (lookup_weaken _ _ _ _ E Hh) in Hr.
      * exists d2. split_and!; [done|congruence|by etrans].
Qed.


(** *** The stable sort *)

Section StableSort.
Context {A : Type} (le : A -> A -> bool).
Hypothesis le_total : forall a b, le a b = true \/ le b a = true.
Hypothesis le_trans : forall a b c, le a b = true -> le b c = true -> le a c = true.








End StableSort.

(** *** The two orders of the Top 25 view *)





(** *** Selecting the first [n] of a stably sorted table *)

Section Selection.
Context {A : Type} (le : A -> A -> bool).
Hypothesis le_total : forall a b, le a b = true \/ le b a = true.
Hypothesis le_trans : forall a b c, le a b = true -> le b c = true -> le a c = true.




End Selection.


(** *** Sorted lists *)




(** *** The loader and its cache *)

(** X1. A call of the loader that finds its key in the cache returns a
    copy of the stored table, whatever workbook is uploaded, and reads
    nothing. *)
Theorem get_data_from_excel_hit (uploaded_file : xlsx) (s : state) (d : DataFrame) :
  cache s !! ("get_data_from_excel", []) = Some d ->
  get_data_from_excel uploaded_file s
  = (Ok (fresh (dom (heap s))),
     mkState (<[fresh (dom (heap s)) := d]> (heap s)) (trace s) (cache s)).
Proof.
  intros Hhit. unfold get_data_from_excel, cache_data. by rewrite Hhit.
Qed.

(** X2. A call of the loader that does not find its key reads the sheet
    "Monthly" of the uploaded workbook, returns it as a new table and
    stores it under the key. *)
Theorem get_data_from_excel_miss (uploaded_file : xlsx) (s : state) (d : DataFrame) :
  cache s !! ("get_data_from_excel", []) = None ->
  lookup_sheet "Monthly" (sheets uploaded_file) = Some d ->
  get_data_from_excel uploaded_file s
  = (Ok (fresh (dom (heap s))),
     mkState (<[fresh (dom (heap s)) := d]> (heap s))
             (trace s ++ [EvReadExcel "Monthly"])
             (<[("get_data_from_excel", []) := d]> (cache s))).
Proof.
  intros Hmiss Hsheet.
  unfold get_data_from_excel, cache_data, get_data_from_excel_body, read_excel.
  rewrite Hmiss. unfold bind, emit, alloc. simpl. rewrite Hsheet. simpl.
  by rewrite lookup_insert_eq.
Qed.

(** *** A workbook without the sheet *)

(** X3. When the uploaded workbook has no sheet "Monthly" and nothing is
    cached, the loader ends with the [ValueError] of [read_excel]; no
    object is created and nothing is stored in the cache. *)
Theorem missing_sheet_is_not_cached (uploaded_file : xlsx) (s : state) :
  cache s !! ("get_data_from_excel", []) = None ->
  lookup_sheet "Monthly" (sheets uploaded_file) = None ->
  get_data_from_excel uploaded_file s
  = (Raise ValueError,
     mkState (heap s) (trace s ++ [EvReadExcel "Monthly"]) (cache s)).
Proof.
  intros Hmiss Hsheet.
  unfold get_data_from_excel, cache_data, get_data_from_excel_body, read_excel.
  rewrite Hmiss. unfold bind, emit, raise. simpl. by rewrite Hsheet.
Qed.

(** C5. A second upload gets the first upload's table: after a run on the
    January workbook, the run on the February workbook (whose sheet
    differs) is served January's table from the cache, without reading
    the new file, and the page shows January's rows. *)
Theorem new_upload_gets_stale_table :
  lookup_sheet "Monthly" (sheets Examples.february) = Some Examples.february_sales /\
  Examples.february_sales <> Examples.january_sales /\
  (exists r s2,
     get_data_from_excel Examples.february
       (rerun (get_data_from_excel Examples.january Examples.start).2)
     = (Ok r, s2) /\
     heap s2 !! r = Some Examples.january_sales /\
     trace s2 = []) /\
  (exists s2,
     @main_page Examples.library
       (Examples.user (Some Examples.february) "Ana Tablo" false [] "")
       (rerun
          (@main_page Examples.library
             (Examples.user (Some Examples.january) "Ana Tablo" false [] "")
             Examples.start).2)
     = (Ok tt, s2) /\
     (EvDataframe Examples.january_sales ∈ trace s2) /\
     (EvDataframe Examples.february_sales ∉ trace s2) /\
     (EvReadExcel "Monthly" ∉ trace s2)).
Proof.
  split_and!.
  - reflexivity.
  - apply (bool_decide_eq_false_1 _). vm_compute. reflexivity.
  - eexists _, _. split_and!.
    + vm_compute. reflexivity.
    + vm_compute. reflexivity.
    + reflexivity.
  - eexists. split_and!.
    + vm_compute. reflexivity.
    + apply (bool_decide_unpack _). vm_compute. exact I.
    + apply (bool_decide_eq_false_1 _). vm_compute. reflexivity.
    + apply (bool_decide_eq_false_1 _). vm_compute. reflexivity.
Qed.

Section Props.
Context `{Library} (u : User).

(** *** The checkbox *)

(** C1. With the 'Add filters' checkbox off, [filter_dataframe] returns the
    very table it was given: the same object, in a store it has not
    touched, so the same rows in the same order under the same columns;
    only the checkbox is rendered. *)
Theorem filter_dataframe_checkbox_off (df : nat) (s : state) :
  u_checkbox u "Add filters" = false ->
  filter_dataframe u df s
  = (Ok df, mkState (heap s) (trace s ++ [EvCheckbox "Add filters"]) (cache s)).
Proof.
  intros Hoff. unfold filter_dataframe, st_checkbox.
  unfold bind, emit, ret. simpl. rewrite Hoff. reflexivity.
Qed.

(** *** The multiselect and its default *)

(** In a column without missing value every default is among the
    options. *)
Lemma default_accepted (ser : Series) :
  notna_all ser = true ->
  forallb (option_found (s_dtype ser) (unique (s_values ser))) (unique (s_values ser))
  = true.
Proof.
  intros Hna. apply forallb_forall. intros x Hx%list_elem_of_In.
  assert (Hin : x ∈ s_values ser) by (by apply elem_of_unique).
  unfold notna_all in Hna. rewrite forallb_forall in Hna.
  specialize (Hna x (proj1 (list_elem_of_In _ _) Hin)).
  destruct x; try done; simpl; by apply bool_decide_eq_true_2.
Qed.

(** The missing value of a numeric column is not among the options. *)
Lemma default_rejected (ser : Series) :
  s_dtype ser = Numeric -> SNull ∈ s_values ser ->
  forallb (option_found (s_dtype ser) (unique (s_values ser))) (unique (s_values ser))
  = false.
Proof.
  intros Hdt Hin. apply not_true_is_false. intros Hall.
  rewrite forallb_forall in Hall.
  specialize (Hall SNull). rewrite Hdt in Hall. simpl in Hall.
  assert (false = true); [|done]. apply Hall.
  by apply list_elem_of_In, elem_of_unique.
Qed.


(** *** The categorical branch *)

Lemma filter_column_categorical (column : string) (df : nat) (s : state)
  (d : DataFrame) (ser : Series) :
  heap s !! df = Some d -> df_getitem d column = Some ser ->
  is_categorical_dtype ser || (nunique ser <? 20)%nat = true ->
  let options := unique (s_values ser) in
  let label := ("Values for " ++ column)%string in
  filter_column u column df s
  = if forallb (option_found (s_dtype ser) options) options then
      (Ok (fresh (dom (heap s))),
       mkState (<[fresh (dom (heap s)) :=
                  df_getitem_mask d (isin ser (u_multiselect u label options options))]>
                  (heap s))
               (trace s ++ [EvElement "write" "↳"; EvMultiselect label options options])
               (cache s))
    else
      (Raise StreamlitAPIException,
       mkState (heap s) (trace s ++ [EvElement "write" "↳"]) (cache s)).
Proof.
  intros Hd Hc Hcat options label. unfold filter_column.
  unfold st_element at 1. unfold bind at 1, emit at 1.
  erewrite bind_Ok; [|by eapply getitem_Ok].
  rewrite Hcat. unfold st_multiselect. fold options.
  destruct (forallb (option_found (s_dtype ser) options) options).
  - unfold bind, emit, ret. simpl.
    rewrite (getitem_mask_Ok _ _ _ d) by done. simpl. by rewrite <- app_assoc.
  - reflexivity.
Qed.

(** A range control in the page after a categorical step was there
    before it. *)
Lemma no_new_range_control (t l : list event) (e : event) :
  forallb (fun x => negb (is_range_control x)) l = true ->
  e ∈ t ++ l -> is_range_control e = true -> e ∈ t.
Proof.
  intros Hl [He|He]%elem_of_app Hrange; [done|].
  rewrite forallb_forall in Hl.
  specialize (Hl e (proj1 (list_elem_of_In _ _) He)). by rewrite Hrange in Hl.
Qed.



(** X4. A numeric column with a missing value and fewer than 20 distinct
    values: the multiselect refuses its default, and the step ends there
    with [StreamlitAPIException], nothing but its arrow on the page. *)
Theorem filter_column_missing_number (column : string) (df : nat) (s : state)
  (d : DataFrame) (ser : Series) :
  heap s !! df = Some d -> df_getitem d column = Some ser ->
  (nunique ser < 20)%nat -> s_dtype ser = Numeric -> SNull ∈ s_values ser ->
  filter_column u column df s
  = (Raise StreamlitAPIException,
     mkState (heap s) (trace s ++ [EvElement "write" "↳"]) (cache s)).
Proof.
  intros Hd Hc Hfew Hdt Hin.
  assert (Hcat : is_categorical_dtype ser || (nunique ser <? 20)%nat = true).
  { apply orb_true_intro. right. by apply Nat.ltb_lt. }
  rewrite (filter_column_categorical column df s d ser Hd Hc Hcat).
  by rewrite (default_rejected ser Hdt Hin).
Qed.

(** C3 (amended). A numeric column without missing value whose minimum
    equals its maximum has one distinct value, so the step takes the
    categorical branch: it raises no error, renders the multiselect over
    that one value and adds no range control; the slider's step is not
    computed. *)
Theorem single_value_numeric_column_is_categorical (column : string) (df : nat)
  (s : state) (d : DataFrame) (ser : Series) (v : Z) :
  heap s !! df = Some d -> df_getitem d column = Some ser ->
  numeric_column ser = true -> notna_all ser = true ->
  list_min (num_values (s_values ser)) = Some v ->
  list_max (num_values (s_values ser)) = Some v ->
  let label := ("Values for " ++ column)%string in
  let out := filter_column u column df s in
  unique (s_values ser) = [SNum v] /\
  exists r, out.1 = Ok r /\
    trace out.2
    = trace s ++ [EvElement "write" "↳"; EvMultiselect label [SNum v] [SNum v]] /\
    (forall e, e ∈ trace out.2 -> is_range_control e = true -> e ∈ trace s).
Proof.
  intros Hd Hc Hnum Hna Hmin Hmax label out. subst out.
  assert (Hcat : is_categorical_dtype ser || (nunique ser <? 20)%nat = true).
  { apply orb_true_intro. right.
    rewrite (nunique_min_eq_max ser v Hnum Hmin Hmax). done. }
  assert (Hone : unique (s_values ser) = [SNum v]).
  { apply unique_constant.
    - intros E. rewrite E in Hmin. done.
    - pose proof (min_eq_max_constant _ _ Hmin Hmax) as Hall.
      apply andb_prop in Hnum as [_ Hcells].
      rewrite forallb_forall in Hcells.
      unfold notna_all in Hna. rewrite forallb_forall in Hna.
      apply Forall_forall. intros x Hx.
      pose proof (proj1 (list_elem_of_In _ _) Hx) as Hin.
      specialize (Hcells x Hin). specialize (Hna x Hin).
      destruct x as [z| | |]; try done.
      f_equal. rewrite Forall_forall in Hall. apply Hall.
      apply list_elem_of_omap. by exists (SNum z). }
  split; [done|].
  rewrite (filter_column_categorical column df s d ser Hd Hc Hcat).
  rewrite (default_accepted ser Hna). rewrite Hone. simpl.
  eexists. split_and!; [done|done|].
  intros e. by apply no_new_range_control.
Qed.


(** *** What a step of the filter loop applies *)

(** A step that returns a table has applied the test of its column to
    the table it was given: the result is [df[p(df[column])]]. *)
Lemma filter_column_applies_test (column : string) (df : nat) (s : state)
  (d : DataFrame) (r : nat) (s' : state) :
  heap s !! df = Some d -> filter_column u column df s = (Ok r, s') ->
  exists ser p, df_getitem d column = Some ser /\
                column_test u column ser = Some p /\
                heap s' !! r = column_filter d column p.
Proof.
  destruct s as [h t c]. simpl. intros Hd Hrun.
  unfold filter_column in Hrun.
  unfold st_element at 1 in Hrun. unfold bind at 1, emit at 1 in Hrun.
  unfold getitem at 1 in Hrun. unfold bind at 1 2, load at 1 in Hrun.
  cbn [heap trace cache] in Hrun. rewrite Hd in Hrun.
  destruct (df_getitem d column) as [ser|] eqn:Hc; [|done].
  unfold ret at 1 in Hrun.
  exists ser. unfold column_test, column_filter. rewrite Hc. csimpl.
  assert (keep_all : df_getitem_mask d ((fun _ => true) <$> s_values ser) = d).
  { pose proof (column_filter_true d column ser Hc) as E.
    unfold column_filter in E. rewrite Hc in E. by injection E. }
  destruct (is_categorical_dtype ser || (nunique ser <? 20)%nat).
  { unfold st_multiselect in Hrun.
    destruct (forallb (option_found (s_dtype ser) (unique (s_values ser)))
                (unique (s_values ser))); [|done].
    unfold getitem_mask, load, alloc, emit, ret, bind in Hrun.
    cbn [heap trace cache] in Hrun. rewrite Hd in Hrun.
    injection Hrun as <- <-. eexists. split_and!; [done|reflexivity|apply lookup_insert_eq]. }
  destruct (is_numeric_dtype ser).
  { destruct (list_min (num_values (s_values ser))) as [mn|]; [|done].
    destruct (list_max (num_values (s_values ser))) as [mx|]; [|done].
    unfold st_slider, getitem_mask, load, alloc, emit, ret, bind in Hrun.
    cbn [heap trace cache] in Hrun. rewrite Hd in Hrun.
    injection Hrun as <- <-. eexists. split_and!; [done|reflexivity|apply lookup_insert_eq]. }
  destruct (is_datetime64_any_dtype ser).
  { unfold st_date_input in Hrun. unfold bind at 1 2, emit at 1, ret at 1 in Hrun.
    cbn [heap trace cache] in Hrun.
    destruct (date_to_datetime <$> _) as [|start_date [|end_date [|x l]]];
      unfold getitem_mask, load, alloc, ret, bind in Hrun;
      cbn [heap trace cache] in Hrun; try rewrite Hd in Hrun;
      injection Hrun as <- <-; eexists; (split_and!; [done|reflexivity|]); cbn [heap];
      first [ apply lookup_insert_eq
            | rewrite Hd; f_equal; symmetry; apply keep_all ]. }
  unfold st_text_input in Hrun. unfold bind at 1 2, emit at 1, ret at 1 in Hrun.
  cbn [heap trace cache] in Hrun.
  destruct (bool_decide (u_text_input u ("Substring or regex in " ++ column) = "")).
  { unfold ret in Hrun. injection Hrun as <- <-. eexists.
    split_and!; [done|reflexivity|].
    cbn [heap]. rewrite Hd. f_equal. symmetry. apply keep_all. }
  unfold str_contains in Hrun.
  assert (Htext : forall search,
    re_compile (u_text_input u ("Substring or regex in " ++ column)) = Some search ->
    bind (ret (contains_cell search <$> s_values ser)) (getitem_object_mask df)
      (mkState h (t ++ [EvElement "write" "↳"]
                    ++ [EvTextInput ("Substring or regex in " ++ column)]) c)
    = (Ok r, s') ->
    exists p,
      Some ser = Some ser /\
      (_ ← mapM (contains_cell search) (s_values ser);
       Some (fun x => default false (contains_cell search x))) = Some p /\
      heap s' !! r = Some (df_getitem_mask d (p <$> s_values ser))).
  { intros search _ Hgo. unfold bind, ret, getitem_object_mask in Hgo.
    rewrite mapM_id_fmap in Hgo.
    destruct (mapM (contains_cell search) (s_values ser)) as [m|] eqn:Em; [|done].
    unfold getitem_mask, load, alloc, bind in Hgo.
    cbn [heap trace cache] in Hgo. rewrite Hd in Hgo. injection Hgo as <- <-.
    eexists. split_and!; [done|reflexivity|]. cbn [heap]. rewrite lookup_insert_eq.
    by rewrite (mapM_Some_default _ _ _ false Em). }
  rewrite <- app_assoc in Hrun.
  destruct (s_dtype ser); try done;
    (destruct (re_compile (u_text_input u ("Substring or regex in " ++ column)))
       as [search|] eqn:Ere; [|done]);
    csimpl; by apply Htext.
Qed.

(** C2. When the loop over two selected columns returns a table, that
    table is the conjunction of the two steps' tests against the table
    the loop started from: the first step applies its test [p1] to the
    original table, the second computes its control from the narrowed
    table and applies its test [p2] to it, and what comes out is
    [df[p1(df[c1]) & p2(df[c2])]] of the original table. *)
Theorem sequential_filters_are_conjunction (c1 c2 : string) (df : nat) (s : state)
  (d : DataFrame) (r : nat) (s' : state) :
  heap s !! df = Some d ->
  for_fold [c1; c2] (filter_column u) df s = (Ok r, s') ->
  exists ser1 p1 d1 ser2 p2,
    df_getitem d c1 = Some ser1 /\ column_test u c1 ser1 = Some p1 /\
    column_filter d c1 p1 = Some d1 /\
    df_getitem d1 c2 = Some ser2 /\ column_test u c2 ser2 = Some p2 /\
    heap s' !! r = column_filter d1 c2 p2 /\
    heap s' !! r = conjunction_filter d c1 p1 c2 p2.
Proof.
  intros Hd Hrun. simpl in Hrun.
  apply bind_Ok_inv in Hrun as (r1 & s1 & Hstep1 & Hrun).
  apply bind_Ok_inv in Hrun as (r2 & s2 & Hstep2 & Hrun).
  unfold ret in Hrun. injection Hrun as -> ->.
  destruct (filter_column_applies_test c1 df s d r1 s1 Hd Hstep1)
    as (ser1 & p1 & Hc1 & Hp1 & Hr1).
  assert (Hd1 : column_filter d c1 p1 = Some (df_getitem_mask d (p1 <$> s_values ser1))).
  { unfold column_filter. by rewrite Hc1. }
  rewrite Hd1 in Hr1.
  destruct (filter_column_applies_test c2 r1 s1 _ r s' Hr1 Hstep2)
    as (ser2 & p2 & Hc2 & Hp2 & Hr2).
  exists ser1, p1, (df_getitem_mask d (p1 <$> s_values ser1)), ser2, p2.
  split_and!; try done.
  rewrite Hr2, <- (column_filter_twice d c1 c2 p1 p2), Hd1. done.
Qed.


(** *** The free-text branch *)

Lemma for_fold_app {A V} (l1 l2 : list A) (body : A -> V -> M V) (v : V) (s : state) :
  for_fold (l1 ++ l2) body v s = bind (for_fold l1 body v) (for_fold l2 body) s.
Proof.
  revert v s. induction l1 as [|x l1 IH]; intros v s; simpl; [done|].
  unfold bind. destruct (body x v s) as [[v'|e] s']; [|done].
  rewrite IH. reflexivity.
Qed.

Lemma filter_column_invalid_pattern (column : string) (df : nat) (s : state)
  (d : DataFrame) (ser : Series) :
  heap s !! df = Some d -> df_getitem d column = Some ser ->
  s_dtype ser = Object -> (20 <= nunique ser)%nat ->
  let label := ("Substring or regex in " ++ column)%string in
  let pat := u_text_input u label in
  pat <> "" -> re_compile pat = None ->
  filter_column u column df s
  = (Raise (ReError pat),
     mkState (heap s) (trace s ++ [EvElement "write" "↳"; EvTextInput label]) (cache s)).
Proof.
  intros Hd Hc Hobj Hmany label pat Hpat Hbad. unfold filter_column.
  unfold st_element at 1. unfold bind at 1, emit at 1.
  erewrite bind_Ok; [|by eapply getitem_Ok].
  unfold is_categorical_dtype, is_numeric_dtype, is_datetime64_any_dtype.
  rewrite Hobj. simpl.
  replace (nunique ser <? 20)%nat with false by (symmetry; apply Nat.ltb_ge; lia).
  unfold st_text_input, bind, emit, ret. simpl. fold label pat.
  rewrite bool_decide_eq_false_2 by done.
  unfold str_contains. rewrite Hobj, Hbad. unfold raise. simpl.
  by rewrite <- app_assoc.
Qed.

(** The page has no handler: what [filter_dataframe] raises ends the run. *)
Lemma main_page_propagates (uploaded_file : xlsx) (s0 : state) (excel_df : nat)
  (s2 : state) (e : exn) (s3 : state) :
  u_file_uploader u = Some uploaded_file ->
  get_data_from_excel uploaded_file
    (mkState (heap s0)
       (trace s0 ++
        [EvElement "image" "logo.jpg";
         EvElement "title" "Coffee Shop Reporting Dashboard";
         EvElement "success" "** Note ** -> The sheet, named Monthly, will be import";
         EvRadio "Tablo Seç:" ["Ana Tablo"; "Sunburst - Tutara Göre";
                                "Sunburst - Miktara Göre"; "Top 25"];
         EvElement "write"
           "<style>div.row-widget.stRadio > div{flex-direction:row;}</style>"])
       (cache s0))
  = (Ok excel_df, s2) ->
  filter_dataframe u excel_df s2 = (Raise e, s3) ->
  main_page u s0 = (Raise e, s3).
Proof.
  intros Hfile Hload Hfilter. unfold main_page. rewrite Hfile.
  unfold st_element, st_radio.
  unfold bind at 1 2 3 4 5 6 7 8, emit at 1 2 3 4 5, ret at 1. simpl.
  rewrite <- !app_assoc. simpl. rewrite Hload.
  unfold bind at 1. by rewrite Hfilter.
Qed.

(** C4 (amended). When the user types a non-empty pattern that does not
    compile into the text box of a free-text column, the step raises
    [re.error] right after rendering the text box, and nothing catches
    it: the loop over the selected columns stops there, so no later column
    is processed and [filter_dataframe] returns no table; and the page,
    which has no handler either, ends with the exception [filter_dataframe]
    raised, before a report view is rendered. *)
Theorem invalid_pattern_aborts (column : string) (rest : list string) (df : nat)
  (s : state) (d : DataFrame) (ser : Series) :
  heap s !! df = Some d -> df_getitem d column = Some ser ->
  s_dtype ser = Object -> (20 <= nunique ser)%nat ->
  let label := ("Substring or regex in " ++ column)%string in
  let pat := u_text_input u label in
  pat <> "" -> re_compile pat = None ->
  let s_err :=
    mkState (heap s) (trace s ++ [EvElement "write" "↳"; EvTextInput label]) (cache s) in
  (forall before df0 s0,
     for_fold before (filter_column u) df0 s0 = (Ok df, s) ->
     for_fold (before ++ column :: rest) (filter_column u) df0 s0
     = (Raise (ReError pat), s_err)) /\
  (forall uploaded_file s0 excel_df s2 e s3,
     u_file_uploader u = Some uploaded_file ->
     get_data_from_excel uploaded_file
       (mkState (heap s0)
          (trace s0 ++
           [EvElement "image" "logo.jpg";
            EvElement "title" "Coffee Shop Reporting Dashboard";
            EvElement "success" "** Note ** -> The sheet, named Monthly, will be import";
            EvRadio "Tablo Seç:" ["Ana Tablo"; "Sunburst - Tutara Göre";
                                   "Sunburst - Miktara Göre"; "Top 25"];
            EvElement "write"
              "<style>div.row-widget.stRadio > div{flex-direction:row;}</style>"])
          (cache s0))
     = (Ok excel_df, s2) ->
     filter_dataframe u excel_df s2 = (Raise e, s3) ->
     main_page u s0 = (Raise e, s3)).
Proof.
  intros Hd Hc Hobj Hmany label pat Hpat Hbad s_err. split.
  - intros before df0 s0 Hbefore. rewrite for_fold_app.
    rewrite (bind_Ok _ _ _ _ _ Hbefore). simpl.
    apply bind_Raise. by apply (filter_column_invalid_pattern column df s d ser).
  - apply main_page_propagates.
Qed.

(** *** The normalization pass *)

Lemma to_datetime_length (ser s' : Series) :
  to_datetime ser = Some s' -> length (s_values s') = length (s_values ser).
Proof.
  unfold to_datetime. intros E.
  destruct (mapM to_datetime_scalar (s_values ser)) as [vs|] eqn:Evs; [|done].
  simpl in E. injection E as <-. simpl. rewrite length_fmap.
  symmetry. by eapply length_mapM.
Qed.

Lemma setitem_run df col s' h t c d ser :
  h !! df = Some d -> df_getitem d col = Some ser ->
  length (s_values s') = length (rows d) ->
  exists d', df_setitem d col s' = Some d' /\
             setitem df col s' (mkState h t c) = (Ok tt, mkState (<[df := d']> h) t c).
Proof.
  intros Hd Hc Hlen.
  destruct (df_setitem_existing d col ser s' Hc Hlen) as (d' & Hset & _).
  exists d'. split; [done|].
  unfold setitem, bind, load, store. simpl. by rewrite Hd, Hset.
Qed.

Lemma normalized_column_shape col d :
  col ∈ column_names d ->
  column_names (normalized_column col d) = column_names d /\
  length (rows (normalized_column col d)) = length (rows d).
Proof.
  intros [ser Hc]%df_getitem_elem_of. unfold normalized_column. rewrite Hc.
  set (d1 := if is_object_dtype ser then _ else d).
  assert (Hd1 : column_names d1 = column_names d /\
                length (rows d1) = length (rows d) /\ is_Some (df_getitem d1 col)).
  { subst d1. destruct (is_object_dtype ser); [|by eauto].
    destruct (to_datetime ser) as [s'|] eqn:E; [|by eauto].
    destruct (df_setitem_existing d col ser s' Hc) as (d' & -> & ? & ? & ?); [|done].
    rewrite (to_datetime_length _ _ E). by eapply df_getitem_length. }
  destruct Hd1 as (Hn & Hl & [ser1 Hc1]). rewrite Hc1.
  destruct (is_datetime64_any_dtype ser1); [|done].
  destruct (df_setitem_existing d1 col ser1 (tz_localize_none ser1) Hc1)
    as (d' & -> & ? & ? & ?); simpl.
  - exact (df_getitem_length _ _ _ Hc1).
  - split; congruence.
Qed.

Lemma normalize_column_run df col h t c d :
  h !! df = Some d -> col ∈ column_names d ->
  normalize_column df col (mkState h t c)
  = (Ok tt, mkState (<[df := normalized_column col d]> h) t c).
Proof.
  intros Hd Hin. destruct (df_getitem_elem_of _ _ Hin) as [ser Hc].
  unfold normalize_column, normalized_column. rewrite Hc.
  erewrite bind_Ok; [|by eapply getitem_Ok].
  set (d1 := if is_object_dtype ser then _ else d).
  assert (HA : (if is_object_dtype ser
                then try_pass (s0 <- getitem df col;;
                               s' <- pd_to_datetime s0;; setitem df col s')
                else ret tt) (mkState h t c)
               = (Ok tt, mkState (<[df := d1]> h) t c) /\
               is_Some (df_getitem d1 col)).
  { subst d1. destruct (is_object_dtype ser).
    - unfold try_pass. erewrite bind_Ok; [|by eapply getitem_Ok].
      unfold pd_to_datetime. destruct (to_datetime ser) as [s'|] eqn:E.
      + unfold bind at 1, ret at 1.
        destruct (setitem_run df col s' h t c d ser) as (d' & Hset & ->); try done.
        { rewrite (to_datetime_length _ _ E). by eapply df_getitem_length. }
        rewrite Hset. simpl. split; [done|].
        destruct (df_setitem_existing d col ser s' Hc) as (d'' & Hset' & _ & _ & ?).
        { rewrite (to_datetime_length _ _ E). by eapply df_getitem_length. }
        congruence.
      + unfold bind, raise. simpl. rewrite insert_id by done. eauto.
    - unfold ret. rewrite insert_id by done. eauto. }
  destruct HA as [HA [ser1 Hc1]].
  erewrite bind_Ok; [|exact HA].
  erewrite bind_Ok; [|eapply getitem_Ok; [apply lookup_insert_eq|exact Hc1]].
  rewrite Hc1.
  destruct (is_datetime64_any_dtype ser1).
  - erewrite bind_Ok; [|eapply getitem_Ok; [apply lookup_insert_eq|exact Hc1]].
    destruct (setitem_run df col (tz_localize_none ser1) (<[df := d1]> h) t c d1 ser1)
      as (d' & Hset & ->);
      [apply lookup_insert_eq|done|exact (df_getitem_length _ _ _ Hc1)|].
    rewrite Hset. simpl. by rewrite insert_insert_eq.
  - done.
Qed.

Lemma normalize_loop_run df cols h t c d :
  h !! df = Some d -> cols ⊆ column_names d ->
  for_each cols (normalize_column df) (mkState h t c)
  = (Ok tt, mkState (<[df := foldl (fun d' col => normalized_column col d') d cols]> h) t c).
Proof.
  revert h d. induction cols as [|col cols IH]; intros h d Hd Hsub; simpl.
  - unfold ret. by rewrite insert_id.
  - assert (col ∈ column_names d) as Hin by (apply Hsub; by left).
    erewrite bind_Ok; [|by apply normalize_column_run].
    rewrite (IH _ (normalized_column col d)).
    + by rewrite insert_insert_eq.
    + apply lookup_insert_eq.
    + destruct (normalized_column_shape col d Hin) as [-> _].
      intros x Hx. apply Hsub. by right.
Qed.

Lemma normalized_shape d :
  column_names (normalized d) = column_names d /\
  length (rows (normalized d)) = length (rows d).
Proof.
  unfold normalized.
  assert (G : forall cols d0, cols ⊆ column_names d0 ->
            column_names (foldl (fun d' col => normalized_column col d') d0 cols)
              = column_names d0 /\
            length (rows (foldl (fun d' col => normalized_column col d') d0 cols))
              = length (rows d0)).
  { induction cols as [|col cols IH]; intros d0 Hsub; simpl; [done|].
    assert (col ∈ column_names d0) as Hin by (apply Hsub; by left).
    destruct (normalized_column_shape col d0 Hin) as [Hn Hl].
    destruct (IH (normalized_column col d0)) as [Hn' Hl'].
    - rewrite Hn. intros x Hx. apply Hsub. by right.
    - split; congruence. }
  by apply G.
Qed.


(** *** The column filters only narrow *)

Lemma filter_column_narrows column df s d :
  heap s !! df = Some d -> narrows df d s (filter_column u column df s).
Proof.
  destruct s as [h t c]. simpl. intros Hd.
  unfold filter_column, st_element, st_multiselect, st_slider, st_date_input,
    st_text_input, getitem, getitem_object_mask, str_contains, getitem_mask,
    alloc, load, bind, emit, ret, raise. simpl. rewrite Hd.
  destruct (df_getitem d column) as [ser|]; [|apply narrows_raise].
  repeat (case_match; simplify_eq/=; try rewrite Hd in *; simplify_eq/=;
          first [apply narrows_raise | apply narrows_mask | by apply narrows_same | idtac]).
Qed.


Lemma filter_loop_narrows cols df s d :
  heap s !! df = Some d ->
  narrows df d s (for_fold cols (filter_column u) df s).
Proof.
  revert df s d. induction cols as [|col cols IH]; intros df s d Hd; simpl.
  - destruct s as [h t c]. by apply narrows_same.
  - pose proof (filter_column_narrows col df s d Hd) as Hstep.
    unfold bind. destruct (filter_column u col df s) as [[r1|e] s1] eqn:E.
    + pose proof Hstep as (_ & _ & _ & d1 & Hd1 & _). simpl in Hd1.
      eapply narrows_trans; [exact Hstep|exact Hd1|]. by apply IH.
    + exact Hstep.
Qed.

(** With the checkbox on: the copy, the normalization pass, then the loop
    over the selected columns. *)
Lemma filter_dataframe_on df s d :
  heap s !! df = Some d -> u_checkbox u "Add filters" = true ->
  let copy := fresh (dom (heap s)) in
  let options := column_names (normalized d) in
  filter_dataframe u df s
  = for_fold (u_multiselect_columns u "Filter dataframe on" options)
      (filter_column u) copy
      (mkState (<[copy := normalized d]> (heap s))
               (trace s ++ [EvCheckbox "Add filters";
                            EvMultiselectColumns "Filter dataframe on" options])
               (cache s)).
Proof.
  destruct s as [h t c]. simpl. intros Hd Hon.
  unfold filter_dataframe, st_checkbox, df_copy, df_columns, st_multiselect_columns.
  unfold bind at 1 2. unfold emit at 1, ret at 1. rewrite Hon. simpl.
  unfold bind at 1 2, load at 1, alloc at 1. simpl. rewrite Hd.
  unfold bind at 1 2, load at 1, ret at 1. simpl. rewrite lookup_insert_eq.
  erewrite (bind_Ok (for_each _ _)); [|apply normalize_loop_run;
                                       [apply lookup_insert_eq|done]].
  rewrite insert_insert_eq.
  unfold bind at 1 2, load at 1, ret at 1. simpl. rewrite lookup_insert_eq.
  unfold bind at 1 2, emit at 1, ret at 1. simpl.
  by rewrite <- app_assoc.
Qed.


(** C8. With filtering on, [filter_dataframe] works on a copy: when it
    ends, by a result or by an exception, the object it was given holds
    the table it held; every object that existed before is as it was (the
    normalization pass assigns columns of the copy only, and each column
    filter builds a new object); the cache is as it was; and the result is
    not the input object. *)
Theorem filter_dataframe_leaves_input (df : nat) (s : state) (d : DataFrame) :
  heap s !! df = Some d -> u_checkbox u "Add filters" = true ->
  let out := filter_dataframe u df s in
  heap out.2 !! df = Some d /\
  heap s ⊆ heap out.2 /\
  cache out.2 = cache s /\
  (forall r, out.1 = Ok r -> r <> df).
Proof.
  intros Hd Hon out. subst out. rewrite (filter_dataframe_on df s d Hd Hon).
  set (copy := fresh (dom (heap s))).
  set (s1 := mkState _ _ _).
  assert (Hcopy : heap s !! copy = None) by apply fresh_lookup.
  assert (Hs1 : heap s ⊆ heap s1) by (by apply insert_subseteq).
  pose proof (filter_loop_narrows
    (u_multiselect_columns u "Filter dataframe on" (column_names (normalized d)))
    copy s1 (normalized d) (lookup_insert_eq _ _ _)) as (Hh & Hc & Hout).
  assert (Hsub : heap s ⊆ heap (for_fold
     (u_multiselect_columns u "Filter dataframe on" (column_names (normalized d)))
     (filter_column u) copy s1).2) by (by etrans).
  split_and!; [by eapply lookup_weaken|done|done|].
  intros r Hr. rewrite Hr in Hout. destruct Hout as [[->|Hnone] _].
  - intros Heq. rewrite Heq in Hcopy. congruence.
  - intros ->. rewrite (lookup_weaken _ _ _ _ Hd Hs1) in Hnone. done.
Qed.

(** C10 (amended). [filter_dataframe] only narrows: the table it returns
    has the column names of the input, and its rows are rows of the table
    the filters start from, in their order.  That table is the normalized
    input when the 'Add filters' checkbox is on; with the checkbox off
    nothing is normalized and it is the input itself. *)
Theorem filter_dataframe_only_narrows (df : nat) (s : state) (d : DataFrame)
  (r' : nat) (s' : state) :
  heap s !! df = Some d -> filter_dataframe u df s = (Ok r', s') ->
  exists d', heap s' !! r' = Some d' /\
             column_names d' = column_names d /\
             rows d' `sublist_of` rows (working_table u d).
Proof.
  intros Hd Hrun. unfold working_table.
  destruct (u_checkbox u "Add filters") eqn:Hbox.
  - rewrite (filter_dataframe_on df s d Hd Hbox) in Hrun.
    match type of Hrun with for_fold ?cols _ ?copy ?s1 = _ =>
      pose proof (filter_loop_narrows cols copy s1 (normalized d)
                    (lookup_insert_eq _ _ _)) as (_ & _ & Hout)
    end.
    rewrite Hrun in Hout. destruct Hout as (_ & d' & Hd' & Hcols & Hrows).
    exists d'. split_and!; [done| |done].
    unfold column_names at 1. rewrite Hcols. apply normalized_shape.
  - unfold filter_dataframe, st_checkbox, bind, emit, ret in Hrun. simpl in Hrun.
    rewrite Hbox in Hrun. simpl in Hrun. injection Hrun as <- <-. by exists d.
Qed.



(** *** Sorting a short table *)





(** *** [nlargest] and [nsmallest] *)















(** *** The Top 25 view *)









(** ** Further properties of the page *)

(** *** The numeric branch *)









(** *** The date branch *)

Lemma filter_column_date (column : string) (df : nat) (s : state)
  (d : DataFrame) (ser : Series) :
  heap s !! df = Some d -> df_getitem d column = Some ser ->
  is_datetime64_any_dtype ser = true -> (20 <= nunique ser)%nat ->
  let label := ("Values for " ++ column)%string in
  let value := (list_min (date_values (s_values ser)),
                list_max (date_values (s_values ser))) in
  filter_column u column df s
  = match date_to_datetime <$> u_date_input u label value with
    | [start_date; end_date] => getitem_mask df (between_date ser start_date end_date)
    | _ => ret df
    end (mkState (heap s) (trace s ++ [EvElement "write" "↳"; EvDateInput label value])
                 (cache s)).
Proof.
  intros Hd Hc Hdate Hmany label value. unfold filter_column.
  unfold st_element at 1. unfold bind at 1, emit at 1.
  erewrite bind_Ok; [|by eapply getitem_Ok].
  assert (Hkind : is_categorical_dtype ser = false /\ is_numeric_dtype ser = false).
  { unfold is_categorical_dtype, is_numeric_dtype, is_datetime64_any_dtype in *.
    destruct (s_dtype ser); done. }
  destruct Hkind as [-> ->]. rewrite Hdate. simpl.
  replace (nunique ser <? 20)%nat with false by (symmetry; apply Nat.ltb_ge; lia).
  unfold st_date_input. unfold bind at 1 2, emit at 1, ret at 1.
  cbn [heap trace cache]. fold label value. by rewrite <- app_assoc.
Qed.

(** X6. A date-time column without time zone and with at least 20
    distinct values gets a date input from its first to its last day.
    Until the user has picked both ends the step returns the table it was
    given; with both ends picked it keeps the rows from midnight of the
    first day to midnight of the last, both included. *)
Theorem date_filter_waits_for_both_ends (column : string) (df : nat) (s : state)
  (d : DataFrame) (ser : Series) :
  heap s !! df = Some d -> df_getitem d column = Some ser ->
  s_dtype ser = Datetime None -> (20 <= nunique ser)%nat ->
  let label := ("Values for " ++ column)%string in
  let value := (list_min (date_values (s_values ser)),
                list_max (date_values (s_values ser))) in
  let user_date_input := u_date_input u label value in
  let out := filter_column u column df s in
  trace out.2 = trace s ++ [EvElement "write" "↳"; EvDateInput label value] /\
  (length user_date_input <> 2%nat -> out.1 = Ok df /\ heap out.2 = heap s) /\
  (forall first last, user_date_input = [first; last] ->
     exists r, out.1 = Ok r /\
       heap out.2 !! r
       = Some (df_getitem_mask d
                 (between_date ser (date_to_datetime first) (date_to_datetime last)))).
Proof.
  intros Hd Hc Hdt Hmany label value user_date_input out. subst out.
  assert (Hdate : is_datetime64_any_dtype ser = true).
  { unfold is_datetime64_any_dtype. by rewrite Hdt. }
  rewrite (filter_column_date column df s d ser Hd Hc Hdate Hmany).
  fold label value user_date_input.
  destruct user_date_input as [|a [|b [|c l]]]; csimpl.
  - split_and!; [done|done|done].
  - split_and!; [done|done|done].
  - rewrite (getitem_mask_Ok _ _ _ d) by done. cbn [heap trace cache fst snd].
    split_and!; [done|done|].
    intros first last [= <- <-]. eexists. split; [done|]. apply lookup_insert_eq.
  - split_and!; [done|done|done].
Qed.

(** *** The free-text branch *)

(** Neither categorical, numeric nor datetime: the column goes to the text
    box. *)
Lemma filter_column_text (column : string) (df : nat) (s : state)
  (d : DataFrame) (ser : Series) :
  heap s !! df = Some d -> df_getitem d column = Some ser ->
  s_dtype ser = Object -> (20 <= nunique ser)%nat ->
  let label := ("Substring or regex in " ++ column)%string in
  let user_text_input := u_text_input u label in
  filter_column u column df s
  = (if bool_decide (user_text_input = "") then ret df
     else mask <- str_contains ser user_text_input ;; getitem_object_mask df mask)
      (mkState (heap s) (trace s ++ [EvElement "write" "↳"; EvTextInput label])
               (cache s)).
Proof.
  intros Hd Hc Hkind Hmany label user_text_input. unfold filter_column.
  unfold st_element at 1. unfold bind at 1, emit at 1.
  erewrite bind_Ok; [|by eapply getitem_Ok].
  unfold is_categorical_dtype, is_numeric_dtype, is_datetime64_any_dtype.
  rewrite Hkind. simpl.
  replace (nunique ser <? 20)%nat with false by (symmetry; apply Nat.ltb_ge; lia).
  unfold st_text_input. unfold bind at 1 2, emit at 1, ret at 1.
  cbn [heap trace cache]. fold label user_text_input.
  by rewrite <- app_assoc.
Qed.

(** X7. A text column with at least 20 distinct values gets a text box;
    while the box is empty the step returns the table it was given, the
    very object, and nothing is searched. *)
Theorem empty_pattern_keeps_table (column : string) (df : nat) (s : state)
  (d : DataFrame) (ser : Series) :
  heap s !! df = Some d -> df_getitem d column = Some ser ->
  s_dtype ser = Object -> (20 <= nunique ser)%nat ->
  let label := ("Substring or regex in " ++ column)%string in
  u_text_input u label = "" ->
  filter_column u column df s
  = (Ok df,
     mkState (heap s) (trace s ++ [EvElement "write" "↳"; EvTextInput label]) (cache s)).
Proof.
  intros Hd Hc Hkind Hmany label Hempty.
  rewrite (filter_column_text column df s d ser Hd Hc Hkind Hmany).
  fold label. rewrite Hempty. done.
Qed.

(** X8. With a pattern that compiles, on a text column every cell of
    which is text, the step keeps the rows in whose cell the pattern is
    found. *)
Theorem text_filter_keeps_matches (column : string) (df : nat) (s : state)
  (d : DataFrame) (ser : Series) (search : string -> bool) :
  heap s !! df = Some d -> df_getitem d column = Some ser ->
  s_dtype ser = Object -> (20 <= nunique ser)%nat ->
  forallb is_text (s_values ser) = true ->
  let label := ("Substring or regex in " ++ column)%string in
  let pat := u_text_input u label in
  pat <> "" -> re_compile pat = Some search ->
  filter_column u column df s
  = (Ok (fresh (dom (heap s))),
     mkState (<[fresh (dom (heap s)) :=
                df_getitem_mask d
                  ((fun x => match x with SStr t => search t | _ => false end)
                     <$> s_values ser)]>
                (heap s))
             (trace s ++ [EvElement "write" "↳"; EvTextInput label]) (cache s)).
Proof.
  intros Hd Hc Hobj Hmany Htext label pat Hpat Hre.
  rewrite (filter_column_text column df s d ser Hd Hc Hobj Hmany).
  fold label pat. rewrite bool_decide_eq_false_2 by done.
  unfold str_contains. rewrite Hobj, Hre. unfold bind at 1, ret at 1.
  unfold getitem_object_mask. rewrite mapM_id_fmap.
  assert (Hm : mapM (contains_cell search) (s_values ser)
               = Some ((fun x => match x with SStr t => search t | _ => false end)
                         <$> s_values ser)).
  { apply mapM_Some, Forall2_fmap_r, Forall_Forall2_diag, Forall_forall.
    intros x Hx. rewrite forallb_forall in Htext.
    specialize (Htext x (proj1 (list_elem_of_In _ _) Hx)). by destruct x. }
  rewrite Hm. by rewrite (getitem_mask_Ok _ _ _ d).
Qed.

(** X9. With a pattern that compiles, on a text column that holds a cell
    that is not text (a missing value), the mask of [str.contains] has a
    missing value and indexing with it raises [ValueError]: the step
    returns no table. *)
Theorem text_filter_missing_value_raises (column : string) (df : nat) (s : state)
  (d : DataFrame) (ser : Series) (search : string -> bool) :
  heap s !! df = Some d -> df_getitem d column = Some ser ->
  s_dtype ser = Object -> (20 <= nunique ser)%nat ->
  forallb is_text (s_values ser) = false ->
  let label := ("Substring or regex in " ++ column)%string in
  let pat := u_text_input u label in
  pat <> "" -> re_compile pat = Some search ->
  filter_column u column df s
  = (Raise ValueError,
     mkState (heap s) (trace s ++ [EvElement "write" "↳"; EvTextInput label]) (cache s)).
Proof.
  intros Hd Hc Hobj Hmany Hmiss label pat Hpat Hre.
  rewrite (filter_column_text column df s d ser Hd Hc Hobj Hmany).
  fold label pat. rewrite bool_decide_eq_false_2 by done.
  unfold str_contains. rewrite Hobj, Hre. unfold bind at 1, ret at 1.
  unfold getitem_object_mask. rewrite mapM_id_fmap.
  assert (Hm : mapM (contains_cell search) (s_values ser) = None).
  { clear -Hmiss. induction (s_values ser) as [|x l IH]; [done|].
    simpl in Hmiss. destruct x as [z|t|z|]; try done.
    change (mapM (contains_cell search) (SStr t :: l))
      with (k ← mapM (contains_cell search) l; Some (search t :: k)).
    by rewrite IH. }
  by rewrite Hm.
Qed.

(** *** The filter with nothing selected *)

(** X10. With the checkbox on and no column selected, [filter_dataframe]
    returns a new object that holds the normalized table; the page shows
    the checkbox and the column picker over the table's columns. *)
Theorem filter_dataframe_nothing_selected (df : nat) (s : state) (d : DataFrame) :
  heap s !! df = Some d -> u_checkbox u "Add filters" = true ->
  u_multiselect_columns u "Filter dataframe on" (column_names (normalized d)) = [] ->
  filter_dataframe u df s
  = (Ok (fresh (dom (heap s))),
     mkState (<[fresh (dom (heap s)) := normalized d]> (heap s))
             (trace s ++ [EvCheckbox "Add filters";
                          EvMultiselectColumns "Filter dataframe on"
                            (column_names (normalized d))])
             (cache s)).
Proof.
  intros Hd Hon Hnone. rewrite (filter_dataframe_on df s d Hd Hon).
  rewrite Hnone. reflexivity.
Qed.

(** *** The normalization of one column *)

(** X11. The normalization pass leaves a text column alone when its
    values do not parse as dates: the exception of [pd.to_datetime] is
    swallowed and the table stays as it was. *)
Theorem unparsable_text_stays (col : string) (d : DataFrame) (ser : Series) :
  df_getitem d col = Some ser -> s_dtype ser = Object -> to_datetime ser = None ->
  normalized_column col d = d.
Proof.
  intros Hc Hobj Hfail. unfold normalized_column. rewrite Hc.
  unfold is_object_dtype. rewrite Hobj. simpl. rewrite Hfail, Hc.
  unfold is_datetime64_any_dtype. by rewrite Hobj.
Qed.

(** X12. The normalization pass takes the time zone off a date-time
    column: the column keeps its wall-clock values and its place, and its
    dtype is date-time without time zone. *)
Theorem time_zone_is_dropped (col : string) (d : DataFrame) (ser : Series)
  (tz : option string) :
  df_getitem d col = Some ser -> s_dtype ser = Datetime tz ->
  df_getitem (normalized_column col d) col = Some (mkSeries (Datetime None) (s_values ser)) /\
  column_names (normalized_column col d) = column_names d.
Proof.
  intros Hc Hdt. unfold normalized_column. rewrite Hc.
  unfold is_object_dtype. rewrite Hdt. simpl. rewrite Hc.
  unfold is_datetime64_any_dtype. rewrite Hdt.
  pose proof Hc as (i & dt & Hi & Hdti & ->)%df_getitem_Some.
  simpl in Hdt. subst dt.
  destruct (column_index_Some _ _ _ Hi) as [dt' Hcol].
  unfold df_setitem, tz_localize_none. simpl.
  rewrite length_fmap, decide_True by done. rewrite Hi. simpl. split.
  - apply df_getitem_Some. exists i, (Datetime None). simpl. split_and!.
    + by apply column_index_insert.
    + rewrite list_fmap_insert. simpl. apply list_lookup_insert_eq.
      rewrite length_fmap. by eapply lookup_lt_Some.
    + f_equal. clear. induction (rows d) as [|r rs IH]; csimpl; [done|].
      f_equal; [|done]. unfold cell.
      destruct (decide (i < length r)%nat) as [Hlt|Hge].
      * by rewrite list_lookup_insert_eq.
      * rewrite list_insert_ge by lia. done.
  - unfold column_names. simpl. rewrite list_fmap_insert. simpl.
    apply list_insert_id. by rewrite list_lookup_fmap, Hcol.
Qed.

(** *** The Top 25 view *)


(** X14. When the column 'MIKTAR' holds text, [nlargest] refuses it:
    [show_tab4] ends with [TypeError] before anything is rendered. *)
Theorem show_tab4_needs_numbers (filtered_df : nat) (s : state) (d : DataFrame)
  (ser : Series) :
  heap s !! filtered_df = Some d -> df_getitem d "MIKTAR" = Some ser ->
  rankable ser = false ->
  show_tab4 filtered_df s = (Raise TypeError, s).
Proof.
  intros Hd Hc Hrank. unfold show_tab4.
  apply bind_Raise. unfold nlargest.
  rewrite (bind_Ok _ _ _ _ _ (load_Ok _ _ _ Hd)).
  erewrite bind_Ok; [|by eapply getitem_Ok].
  by rewrite Hrank.
Qed.

(** *** The page without an upload *)

(** X15. As long as no file is uploaded, a run of the page ends well
    having rendered the logo, the title, the note and the style that hides
    the footer (the uploader itself is not recorded): no radio, no filter
    control and no report is rendered, nothing is read, and the store and
    the cache are as they were. *)
Theorem main_page_without_upload (s : state) :
  u_file_uploader u = None ->
  main_page u s
  = (Ok tt,
     mkState (heap s)
       (trace s ++
        [EvElement "image" "logo.jpg";
         EvElement "title" "Coffee Shop Reporting Dashboard";
         EvElement "success" "** Note ** -> The sheet, named Monthly, will be import";
         EvElement "markdown" "footer {visibility: hidden;}"])
       (cache s)).
Proof.
  intros Hnone. unfold main_page. rewrite Hnone.
  unfold st_element, bind, emit, ret. simpl. by rewrite <- !app_assoc.
Qed.


End Props.

(** ** The properties on the sample data *)

(** C1 at work: the reader's table comes back as it is. *)
Lemma filter_dataframe_checkbox_off_witness :
  u_checkbox Examples.reader "Add filters" = false /\
  @filter_dataframe Examples.library Examples.reader 0%nat
    (Examples.holding Examples.january_sales)
  = (Ok 0%nat,
     mkState (heap (Examples.holding Examples.january_sales))
             (trace (Examples.holding Examples.january_sales)
                ++ [EvCheckbox "Add filters"])
             (cache (Examples.holding Examples.january_sales))).
Proof.
  split; [reflexivity|].
  apply (@filter_dataframe_checkbox_off Examples.library). reflexivity.
Defined.

(** C2 at work: the quantity narrowed to 10 .. 49, then the category, on
    the sixty rows of the busy month. *)
Lemma sequential_filters_are_conjunction_witness :
  exists ser1 p1 d1 ser2 p2,
    df_getitem Examples.busy_sales "MIKTAR" = Some ser1 /\
    @column_test Examples.library Examples.ranger "MIKTAR" ser1 = Some p1 /\
    column_filter Examples.busy_sales "MIKTAR" p1 = Some d1 /\
    df_getitem d1 "TURU" = Some ser2 /\
    @column_test Examples.library Examples.ranger "TURU" ser2 = Some p2 /\
    heap (for_fold ["MIKTAR"; "TURU"] (@filter_column Examples.library Examples.ranger)
            0%nat (Examples.holding Examples.busy_sales)).2 !! 2%nat
    = column_filter d1 "TURU" p2 /\
    heap (for_fold ["MIKTAR"; "TURU"] (@filter_column Examples.library Examples.ranger)
            0%nat (Examples.holding Examples.busy_sales)).2 !! 2%nat
    = conjunction_filter Examples.busy_sales "MIKTAR" p1 "TURU" p2.
Proof.
  apply (@sequential_filters_are_conjunction Examples.library Examples.ranger
           "MIKTAR" "TURU" 0%nat (Examples.holding Examples.busy_sales)
           Examples.busy_sales 2%nat).
  - reflexivity.
  - vm_compute. reflexivity.
Defined.

(** C3, as stated, fails: the quantity column of February is numeric, its
    minimum is its maximum (7), and filtering on it renders a multiselect
    over the value 7; the page holds no slider, hence no single-point
    range. *)
Lemma single_value_column_gets_no_range :
  df_getitem Examples.february_sales "MIKTAR"
  = Some (mkSeries Numeric [SNum 7; SNum 7; SNum 7]) /\
  list_min (num_values [SNum 7; SNum 7; SNum 7]) = Some 7%Z /\
  list_max (num_values [SNum 7; SNum 7; SNum 7]) = Some 7%Z /\
  exists r s',
    @filter_dataframe Examples.library Examples.counter 0%nat
      (Examples.holding Examples.february_sales) = (Ok r, s') /\
    trace s'
    = [EvCheckbox "Add filters";
       EvMultiselectColumns "Filter dataframe on"
         ["AY"; "TURU"; "TIPI"; "MIKTAR"; "TUTAR"];
       EvElement "write" "↳";
       EvMultiselect "Values for MIKTAR" [SNum 7] [SNum 7]] /\
    ~ (exists e, e ∈ trace s' /\ is_range_control e = true).
Proof.
  split_and!; [reflexivity..|].
  eexists _, _. split; [vm_compute; reflexivity|]. split; [reflexivity|].
  intros (e & He & Hrange). simpl in He.
  repeat (apply elem_of_cons in He as [->|He]; [discriminate|]).
  by apply elem_of_nil in He.
Qed.

(** C3 (amended) at work on the same column. *)
Lemma single_value_numeric_column_is_categorical_witness :
  unique (s_values (mkSeries Numeric [SNum 7; SNum 7; SNum 7])) = [SNum 7] /\
  exists r,
    (@filter_column Examples.library Examples.counter "MIKTAR" 0%nat
       (Examples.holding Examples.february_sales)).1 = Ok r /\
    trace (@filter_column Examples.library Examples.counter "MIKTAR" 0%nat
             (Examples.holding Examples.february_sales)).2
    = trace (Examples.holding Examples.february_sales)
      ++ [EvElement "write" "↳";
          EvMultiselect "Values for MIKTAR" [SNum 7] [SNum 7]] /\
    (forall e,
       e ∈ trace (@filter_column Examples.library Examples.counter "MIKTAR" 0%nat
                    (Examples.holding Examples.february_sales)).2 ->
       is_range_control e = true ->
       e ∈ trace (Examples.holding Examples.february_sales)).
Proof.
  apply (@single_value_numeric_column_is_categorical Examples.library
           Examples.counter "MIKTAR" 0%nat
           (Examples.holding Examples.february_sales) Examples.february_sales
           (mkSeries Numeric [SNum 7; SNum 7; SNum 7]) 7%Z); reflexivity.
Defined.

(** C4, as stated, fails: the typist filters on the product name and types
    "(", which does not compile.  The column's filter is not skipped and
    the page does not go on: the run ends with [re.error] right after the
    text box, and neither a table nor a chart is rendered. *)
Lemma invalid_pattern_ends_the_run :
  @re_compile Examples.library "(" = None /\
  exists s',
    @main_page Examples.library Examples.typist Examples.start
    = (Raise (ReError "("), s') /\
    trace s'
    = [EvElement "image" "logo.jpg";
       EvElement "title" "Coffee Shop Reporting Dashboard";
       EvElement "success" "** Note ** -> The sheet, named Monthly, will be import";
       EvRadio "Tablo Seç:" ["Ana Tablo"; "Sunburst - Tutara Göre";
                              "Sunburst - Miktara Göre"; "Top 25"];
       EvElement "write"
         "<style>div.row-widget.stRadio > div{flex-direction:row;}</style>";
       EvReadExcel "Monthly";
       EvCheckbox "Add filters";
       EvMultiselectColumns "Filter dataframe on"
         ["AY"; "TURU"; "TIPI"; "MIKTAR"; "TUTAR"];
       EvElement "write" "↳";
       EvTextInput "Substring or regex in TIPI"] /\
    ~ (exists e, e ∈ trace s' /\ is_report e = true).
Proof.
  split; [reflexivity|].
  eexists. split; [vm_compute; reflexivity|]. split; [reflexivity|].
  intros (e & He & Hreport). simpl in He.
  repeat (apply elem_of_cons in He as [->|He]; [discriminate|]).
  by apply elem_of_nil in He.
Qed.

(** C4 (amended) at work: the typist's loop, started on January's table. *)
Lemma invalid_pattern_aborts_witness :
  (forall before df0 s0,
     for_fold before (@filter_column Examples.library Examples.typist) df0 s0
     = (Ok 0%nat, Examples.holding Examples.january_sales) ->
     for_fold (before ++ "TIPI" :: ["MIKTAR"])
       (@filter_column Examples.library Examples.typist) df0 s0
     = (Raise (ReError "("),
        mkState (heap (Examples.holding Examples.january_sales))
          (trace (Examples.holding Examples.january_sales)
             ++ [EvElement "write" "↳"; EvTextInput "Substring or regex in TIPI"])
          (cache (Examples.holding Examples.january_sales)))) /\
  (forall uploaded_file s0 excel_df s2 e s3,
     u_file_uploader Examples.typist = Some uploaded_file ->
     get_data_from_excel uploaded_file
       (mkState (heap s0)
          (trace s0 ++
           [EvElement "image" "logo.jpg";
            EvElement "title" "Coffee Shop Reporting Dashboard";
            EvElement "success" "** Note ** -> The sheet, named Monthly, will be import";
            EvRadio "Tablo Seç:" ["Ana Tablo"; "Sunburst - Tutara Göre";
                                   "Sunburst - Miktara Göre"; "Top 25"];
            EvElement "write"
              "<style>div.row-widget.stRadio > div{flex-direction:row;}</style>"])
          (cache s0))
     = (Ok excel_df, s2) ->
     @filter_dataframe Examples.library Examples.typist excel_df s2 = (Raise e, s3) ->
     @main_page Examples.library Examples.typist s0 = (Raise e, s3)).
Proof.
  apply (@invalid_pattern_aborts Examples.library Examples.typist "TIPI" ["MIKTAR"]
           0%nat (Examples.holding Examples.january_sales) Examples.january_sales
           (mkSeries Object (SStr <$> Examples.products))).
  - reflexivity.
  - reflexivity.
  - reflexivity.
  - vm_compute. lia.
  - discriminate.
  - reflexivity.
Defined.





(** C8 at work: the shopper's filters leave January's table alone. *)
Lemma filter_dataframe_leaves_input_witness :
  heap (@filter_dataframe Examples.library Examples.shopper 0%nat
          (Examples.holding Examples.january_sales)).2 !! 0%nat
  = Some Examples.january_sales /\
  heap (Examples.holding Examples.january_sales)
  ⊆ heap (@filter_dataframe Examples.library Examples.shopper 0%nat
            (Examples.holding Examples.january_sales)).2 /\
  cache (@filter_dataframe Examples.library Examples.shopper 0%nat
           (Examples.holding Examples.january_sales)).2
  = cache (Examples.holding Examples.january_sales) /\
  (forall r,
     (@filter_dataframe Examples.library Examples.shopper 0%nat
        (Examples.holding Examples.january_sales)).1 = Ok r -> r <> 0%nat).
Proof.
  apply (@filter_dataframe_leaves_input Examples.library Examples.shopper 0%nat
           (Examples.holding Examples.january_sales) Examples.january_sales);
    reflexivity.
Defined.



(** C10, as stated, fails: the reader leaves the checkbox off, so the
    delivery table comes back with its day as text, while the normalized
    table holds the day as a time stamp; the returned row is no row of the
    normalized input. *)
Lemma unfiltered_table_is_not_normalized :
  u_checkbox Examples.reader "Add filters" = false /\
  heap (Examples.holding Examples.delivery) !! 0%nat = Some Examples.delivery /\
  @filter_dataframe Examples.library Examples.reader 0%nat
    (Examples.holding Examples.delivery)
  = (Ok 0%nat,
     mkState (heap (Examples.holding Examples.delivery))
             [EvCheckbox "Add filters"]
             (cache (Examples.holding Examples.delivery))) /\
  rows Examples.delivery = [[SStr "2024-01-01"; SNum 3]] /\
  rows (@normalized Examples.library Examples.delivery)
  = [[SDate 1704067200000000000; SNum 3]] /\
  ~ (rows Examples.delivery
     `sublist_of` rows (@normalized Examples.library Examples.delivery)).
Proof.
  split_and!; [reflexivity..|].
  change (rows (@normalized Examples.library Examples.delivery))
    with [[SDate 1704067200000000000; SNum 3]].
  change (rows Examples.delivery) with [[SStr "2024-01-01"; SNum 3]].
  intros Hsub. apply sublist_cons_l in Hsub as (k1 & k2 & Heq & _).
  destruct k1 as [|x [|y k1]]; simplify_eq.
Qed.

(** C10 (amended) at work: what the shopper's filters return. *)
Lemma filter_dataframe_only_narrows_witness :
  exists d',
    heap (@filter_dataframe Examples.library Examples.shopper 0%nat
            (Examples.holding Examples.january_sales)).2 !! 3%nat = Some d' /\
    column_names d' = column_names Examples.january_sales /\
    rows d' `sublist_of`
      rows (@working_table Examples.library Examples.shopper Examples.january_sales).
Proof.
  apply (@filter_dataframe_only_narrows Examples.library Examples.shopper 0%nat
           (Examples.holding Examples.january_sales) Examples.january_sales 3%nat
           (@filter_dataframe Examples.library Examples.shopper 0%nat
              (Examples.holding Examples.january_sales)).2).
  - reflexivity.
  - vm_compute. reflexivity.
Defined.

(** ** The further properties on the sample data *)

(** X1 at work: after January was loaded, the call for February is served
    from the cache. *)
Lemma get_data_from_excel_hit_witness :
  cache (rerun (get_data_from_excel Examples.january Examples.start).2)
    !! ("get_data_from_excel", []) = Some Examples.january_sales /\
  get_data_from_excel Examples.february
    (rerun (get_data_from_excel Examples.january Examples.start).2)
  = (Ok (fresh (dom (heap (rerun (get_data_from_excel Examples.january
                                    Examples.start).2)))),
     mkState
       (<[fresh (dom (heap (rerun (get_data_from_excel Examples.january
                                     Examples.start).2))) := Examples.january_sales]>
          (heap (rerun (get_data_from_excel Examples.january Examples.start).2)))
       (trace (rerun (get_data_from_excel Examples.january Examples.start).2))
       (cache (rerun (get_data_from_excel Examples.january Examples.start).2))).
Proof.
  split; [vm_compute; reflexivity|].
  apply get_data_from_excel_hit. vm_compute. reflexivity.
Defined.

(** X2 at work: the first load of January. *)
Lemma get_data_from_excel_miss_witness :
  get_data_from_excel Examples.january Examples.start
  = (Ok (fresh (dom (heap Examples.start))),
     mkState (<[fresh (dom (heap Examples.start)) := Examples.january_sales]>
                (heap Examples.start))
             (trace Examples.start ++ [EvReadExcel "Monthly"])
             (<[("get_data_from_excel", []) := Examples.january_sales]>
                (cache Examples.start))).
Proof.
  apply get_data_from_excel_miss; reflexivity.
Defined.

(** X3 at work: a workbook that holds notes only. *)
Lemma missing_sheet_is_not_cached_witness :
  get_data_from_excel Examples.notes_only Examples.start
  = (Raise ValueError,
     mkState (heap Examples.start) (trace Examples.start ++ [EvReadExcel "Monthly"])
             (cache Examples.start)).
Proof.
  apply missing_sheet_is_not_cached; reflexivity.
Defined.

(** X4 at work: the quantity column of March. *)
Lemma filter_column_missing_number_witness :
  @filter_column Examples.library Examples.counter "MIKTAR" 0%nat
    (Examples.holding Examples.march_sales)
  = (Raise StreamlitAPIException,
     mkState (heap (Examples.holding Examples.march_sales))
             (trace (Examples.holding Examples.march_sales) ++ [EvElement "write" "↳"])
             (cache (Examples.holding Examples.march_sales))).
Proof.
  refine (@filter_column_missing_number Examples.library Examples.counter "MIKTAR"
           0%nat (Examples.holding Examples.march_sales) Examples.march_sales
           (mkSeries Numeric [SNum 7; SNull; SNum 7]) _ _ _ _ _).
  - reflexivity.
  - reflexivity.
  - vm_compute. lia.
  - reflexivity.
  - simpl. apply elem_of_cons. right. apply elem_of_cons. by left.
Defined.


(** X6 at work: the days 3 to 7 of the twenty deliveries. *)
Lemma date_filter_waits_for_both_ends_witness :
  trace (@filter_column Examples.library Examples.scheduler "TARIH" 0%nat
           (Examples.holding Examples.deliveries)).2
  = trace (Examples.holding Examples.deliveries)
    ++ [EvElement "write" "↳";
        EvDateInput "Values for TARIH"
          (list_min (date_values (cell 0 <$> rows Examples.deliveries)),
           list_max (date_values (cell 0 <$> rows Examples.deliveries)))] /\
  (length (u_date_input Examples.scheduler "Values for TARIH"
             (list_min (date_values (cell 0 <$> rows Examples.deliveries)),
              list_max (date_values (cell 0 <$> rows Examples.deliveries)))) <> 2%nat ->
   (@filter_column Examples.library Examples.scheduler "TARIH" 0%nat
      (Examples.holding Examples.deliveries)).1 = Ok 0%nat /\
   heap (@filter_column Examples.library Examples.scheduler "TARIH" 0%nat
           (Examples.holding Examples.deliveries)).2
   = heap (Examples.holding Examples.deliveries)) /\
  (forall first last,
     u_date_input Examples.scheduler "Values for TARIH"
       (list_min (date_values (cell 0 <$> rows Examples.deliveries)),
        list_max (date_values (cell 0 <$> rows Examples.deliveries)))
     = [first; last] ->
     exists r,
       (@filter_column Examples.library Examples.scheduler "TARIH" 0%nat
          (Examples.holding Examples.deliveries)).1 = Ok r /\
       heap (@filter_column Examples.library Examples.scheduler "TARIH" 0%nat
               (Examples.holding Examples.deliveries)).2 !! r
       = Some (df_getitem_mask Examples.deliveries
                 (between_date
                    (mkSeries (Datetime None) (cell 0 <$> rows Examples.deliveries))
                    (date_to_datetime first) (date_to_datetime last)))).
Proof.
  refine (@date_filter_waits_for_both_ends Examples.library Examples.scheduler
            "TARIH" 0%nat (Examples.holding Examples.deliveries) Examples.deliveries
            (mkSeries (Datetime None) (cell 0 <$> rows Examples.deliveries)) _ _ _ _).
  - reflexivity.
  - reflexivity.
  - reflexivity.
  - vm_compute. lia.
Defined.

(** X7 at work: the shopper types nothing into the box of the product
    names. *)
Lemma empty_pattern_keeps_table_witness :
  @filter_column Examples.library Examples.shopper "TIPI" 0%nat
    (Examples.holding Examples.january_sales)
  = (Ok 0%nat,
     mkState (heap (Examples.holding Examples.january_sales))
             (trace (Examples.holding Examples.january_sales)
                ++ [EvElement "write" "↳"; EvTextInput "Substring or regex in TIPI"])
             (cache (Examples.holding Examples.january_sales))).
Proof.
  refine (@empty_pattern_keeps_table Examples.library Examples.shopper "TIPI" 0%nat
           (Examples.holding Examples.january_sales) Examples.january_sales
           (mkSeries Object (SStr <$> Examples.products)) _ _ _ _ _).
  - reflexivity.
  - reflexivity.
  - reflexivity.
  - vm_compute. lia.
  - reflexivity.
Defined.

(** X8 at work: the products whose name holds "Latte". *)
Lemma text_filter_keeps_matches_witness :
  @filter_column Examples.library Examples.latte_fan "TIPI" 0%nat
    (Examples.holding Examples.january_sales)
  = (Ok (fresh (dom (heap (Examples.holding Examples.january_sales)))),
     mkState
       (<[fresh (dom (heap (Examples.holding Examples.january_sales))) :=
          df_getitem_mask Examples.january_sales
            ((fun x => match x with
                       | SStr t => Examples.find_literal "Latte" t
                       | _ => false
                       end) <$> (SStr <$> Examples.products))]>
          (heap (Examples.holding Examples.january_sales)))
       (trace (Examples.holding Examples.january_sales)
          ++ [EvElement "write" "↳"; EvTextInput "Substring or regex in TIPI"])
       (cache (Examples.holding Examples.january_sales))).
Proof.
  refine (@text_filter_keeps_matches Examples.library Examples.latte_fan "TIPI" 0%nat
           (Examples.holding Examples.january_sales) Examples.january_sales
           (mkSeries Object (SStr <$> Examples.products))
           (Examples.find_literal "Latte") _ _ _ _ _ _ _).
  - reflexivity.
  - reflexivity.
  - reflexivity.
  - vm_compute. lia.
  - reflexivity.
  - discriminate.
  - reflexivity.
Defined.

(** X9 at work: one product name is missing. *)
Lemma text_filter_missing_value_raises_witness :
  @filter_column Examples.library Examples.latte_fan "TIPI" 0%nat
    (Examples.holding Examples.patchy_sales)
  = (Raise ValueError,
     mkState (heap (Examples.holding Examples.patchy_sales))
             (trace (Examples.holding Examples.patchy_sales)
                ++ [EvElement "write" "↳"; EvTextInput "Substring or regex in TIPI"])
             (cache (Examples.holding Examples.patchy_sales))).
Proof.
  refine (@text_filter_missing_value_raises Examples.library Examples.latte_fan "TIPI"
           0%nat (Examples.holding Examples.patchy_sales) Examples.patchy_sales
           (mkSeries Object ((SStr <$> Examples.products) ++ [SNull]))
           (Examples.find_literal "Latte") _ _ _ _ _ _ _).
  - reflexivity.
  - reflexivity.
  - reflexivity.
  - vm_compute. lia.
  - reflexivity.
  - discriminate.
  - reflexivity.
Defined.

(** X10 at work: the onlooker ticks the checkbox and selects nothing; the
    day of the delivery comes back as a time stamp. *)
Lemma filter_dataframe_nothing_selected_witness :
  rows (@normalized Examples.library Examples.delivery)
  = [[SDate 1704067200000000000; SNum 3]] /\
  @filter_dataframe Examples.library Examples.onlooker 0%nat
    (Examples.holding Examples.delivery)
  = (Ok (fresh (dom (heap (Examples.holding Examples.delivery)))),
     mkState
       (<[fresh (dom (heap (Examples.holding Examples.delivery))) :=
          @normalized Examples.library Examples.delivery]>
          (heap (Examples.holding Examples.delivery)))
       (trace (Examples.holding Examples.delivery)
          ++ [EvCheckbox "Add filters";
              EvMultiselectColumns "Filter dataframe on"
                (column_names (@normalized Examples.library Examples.delivery))])
       (cache (Examples.holding Examples.delivery))).
Proof.
  split; [reflexivity|].
  apply (@filter_dataframe_nothing_selected Examples.library Examples.onlooker 0%nat
           (Examples.holding Examples.delivery) Examples.delivery); reflexivity.
Defined.

(** X11 at work: the product names of January are no dates. *)
Lemma unparsable_text_stays_witness :
  @normalized_column Examples.library "TIPI" Examples.january_sales
  = Examples.january_sales.
Proof.
  apply (@unparsable_text_stays Examples.library "TIPI" Examples.january_sales
           (mkSeries Object (SStr <$> Examples.products))); reflexivity.
Defined.

(** X12 at work: deliveries recorded in Istanbul time. *)
Lemma time_zone_is_dropped_witness :
  df_getitem
    (@normalized_column Examples.library "TARIH"
       (mkDF [("TARIH", Datetime (Some "Europe/Istanbul")); ("MIKTAR", Numeric)]
             (rows Examples.deliveries)))
    "TARIH"
  = Some (mkSeries (Datetime None)
            (s_values (mkSeries (Datetime (Some "Europe/Istanbul"))
                         (cell 0 <$> rows Examples.deliveries)))) /\
  column_names
    (@normalized_column Examples.library "TARIH"
       (mkDF [("TARIH", Datetime (Some "Europe/Istanbul")); ("MIKTAR", Numeric)]
             (rows Examples.deliveries)))
  = column_names
      (mkDF [("TARIH", Datetime (Some "Europe/Istanbul")); ("MIKTAR", Numeric)]
            (rows Examples.deliveries)).
Proof.
  apply (@time_zone_is_dropped Examples.library "TARIH"
           (mkDF [("TARIH", Datetime (Some "Europe/Istanbul")); ("MIKTAR", Numeric)]
                 (rows Examples.deliveries))
           (mkSeries (Datetime (Some "Europe/Istanbul"))
              (cell 0 <$> rows Examples.deliveries))
           (Some "Europe/Istanbul")); reflexivity.
Defined.


(** X14 at work: quantities entered as text. *)
Lemma show_tab4_needs_numbers_witness :
  @show_tab4 Examples.library 0%nat (Examples.holding Examples.text_quantities)
  = (Raise TypeError, Examples.holding Examples.text_quantities).
Proof.
  apply (@show_tab4_needs_numbers Examples.library 0%nat
           (Examples.holding Examples.text_quantities) Examples.text_quantities
           (mkSeries Object [SStr "7"])); reflexivity.
Defined.

(** X15 at work: a visitor who uploads nothing. *)
Lemma main_page_without_upload_witness :
  @main_page Examples.library Examples.visitor Examples.start
  = (Ok tt,
     mkState (heap Examples.start)
       (trace Examples.start ++
        [EvElement "image" "logo.jpg";
         EvElement "title" "Coffee Shop Reporting Dashboard";
         EvElement "success" "** Note ** -> The sheet, named Monthly, will be import";
         EvElement "markdown" "footer {visibility: hidden;}"])
       (cache Examples.start)).
Proof.
  apply (@main_page_without_upload Examples.library Examples.visitor Examples.start).
  reflexivity.
Defined.
